(** * Wearable-data normalization: a shallow embedding of
    [glue/scripts/normalize_wearable_data.py]

    The script normalizes wearable telemetry: timestamps are converted to
    UTC ([convert_to_utc]) and the three payload columns are rewritten by
    [normalize_heart_rate], [normalize_activity] and [normalize_sleep];
    [normalized_df] applies them to every row.

    Modelling choices.
    - Python values are the JSON-shaped values the payloads hold ([pyval]);
      a [dict] is a finite map with string keys, a [float] is a binary64
      primitive float, an [int] is an unbounded integer.
    - Exceptions are results ([exn]); the payload normalizers mutate the
      mapping bound to their parameter in place, so their bodies run in a
      state-and-exception monad whose state survives a raise.
    - [json.loads], [dateutil.parser.parse], [pytz] and [datetime] are
      libraries the script calls: they are parameters of the model.
    - Strings are byte strings; [str.lower] is the ASCII lower-casing. *)

From Stdlib Require Import ZArith String Ascii Lia.
From Stdlib Require Import Floats.PrimFloat Floats.SpecFloat Floats.FloatOps.
From Stdlib Require DecimalString DecimalPos DecimalZ.
From stdpp Require Import base option gmap strings list.

#[local] Set Warnings "-register-all,-inexact-float,-clear-no-such-hyp".
#[local] Open Scope string_scope.
#[local] Open Scope Z_scope.

(** ** Python values and exceptions *)

Inductive pyexn : Type :=
| TypeError | AttributeError | KeyError | ValueError
| OverflowError | ZeroDivisionError | JSONDecodeError.

Inductive exn (A : Type) : Type :=
| Ok (a : A)
| Raise (e : pyexn).
Arguments Ok {A} a.
Arguments Raise {A} e.

Definition exn_bind {A B} (x : exn A) (f : A -> exn B) : exn B :=
  match x with Ok a => f a | Raise e => Raise e end.

Inductive pyval : Type :=
| VNone
| VBool (b : bool)
| VInt (z : Z)
| VFloat (f : float)
| VStr (s : string)
| VList (l : list pyval)
| VDict (m : gmap string pyval).

Definition is_none (v : pyval) : bool :=
  match v with VNone => true | _ => false end.

(** [v == s] for a string literal [s]. *)
Definition py_eq_str (v : pyval) (s : string) : bool :=
  match v with VStr t => bool_decide (t = s) | _ => false end.

(** Truth value of an object (what [if v:] tests). *)
Definition py_truth (v : pyval) : bool :=
  match v with
  | VNone => false
  | VBool b => b
  | VInt z => negb (z =? 0)
  | VFloat f => negb (PrimFloat.eqb f 0%float)
  | VStr s => negb (bool_decide (s = ""))
  | VList l => match l with [] => false | _ => true end
  | VDict m => negb (bool_decide (m = ∅))
  end.

(** ** Numbers: [int] (and [bool], its subclass) and [float] *)

Inductive num : Type :=
| NInt (z : Z)
| NFloat (f : float).

Definition as_num (v : pyval) : option num :=
  match v with
  | VBool b => Some (NInt (Z.b2z b))
  | VInt z => Some (NInt z)
  | VFloat f => Some (NFloat f)
  | _ => None
  end.

Definition of_num (n : num) : pyval :=
  match n with NInt z => VInt z | NFloat f => VFloat f end.

(** The binary64 value nearest to the integer [z] (ties to even);
    infinite when [z] is out of range. *)
Definition nearest_float (z : Z) : float :=
  SF2Prim (binary_normalize prec emax z 0 false).

(** [float(z)]: raises [OverflowError] when [z] is too large. *)
Definition float_of_Z (z : Z) : exn float :=
  let f := nearest_float z in
  if is_infinity f then Raise OverflowError else Ok f.

(** The binary64 value nearest to [n / d] for [n >= 0] and [d > 0], negated
    when [neg]: the quotient is taken with at least 56 significant bits and
    a sticky bit, which is enough for the final rounding to be correct. *)
Definition round_quotient (neg : bool) (n d : Z) : float :=
  let k := Z.max 0 (Z.log2 d + 56 - Z.log2 n) in
  let q := (n * 2 ^ k) / d in
  let sticky := if (n * 2 ^ k) mod d =? 0 then 0 else 1 in
  let f := SF2Prim (binary_normalize prec emax (2 * q + sticky) (- k - 1) false) in
  if neg then PrimFloat.opp f else f.

(** [a / b] on two ints: true division, correctly rounded. *)
Definition Z_truediv (a b : Z) : exn float :=
  if b =? 0 then Raise ZeroDivisionError
  else
    let f := round_quotient (xorb (a <? 0) (b <? 0)) (Z.abs a) (Z.abs b) in
    if is_infinity f then Raise OverflowError else Ok f.

Definition num_mul (a b : num) : exn num :=
  match a, b with
  | NInt x, NInt y => Ok (NInt (x * y))
  | NInt x, NFloat g => exn_bind (float_of_Z x) (fun f => Ok (NFloat (f * g)))
  | NFloat f, NInt y => exn_bind (float_of_Z y) (fun g => Ok (NFloat (f * g)))
  | NFloat f, NFloat g => Ok (NFloat (f * g))
  end.

Definition num_add (a b : num) : exn num :=
  match a, b with
  | NInt x, NInt y => Ok (NInt (x + y))
  | NInt x, NFloat g => exn_bind (float_of_Z x) (fun f => Ok (NFloat (f + g)))
  | NFloat f, NInt y => exn_bind (float_of_Z y) (fun g => Ok (NFloat (f + g)))
  | NFloat f, NFloat g => Ok (NFloat (f + g))
  end.

Definition float_truediv (f g : float) : exn float :=
  if PrimFloat.eqb g 0%float then Raise ZeroDivisionError else Ok (f / g)%float.

Definition num_truediv (a b : num) : exn num :=
  match a, b with
  | NInt x, NInt y => exn_bind (Z_truediv x y) (fun f => Ok (NFloat f))
  | NInt x, NFloat g =>
      exn_bind (float_of_Z x) (fun f => exn_bind (float_truediv f g) (fun r => Ok (NFloat r)))
  | NFloat f, NInt y =>
      exn_bind (float_of_Z y) (fun g => exn_bind (float_truediv f g) (fun r => Ok (NFloat r)))
  | NFloat f, NFloat g => exn_bind (float_truediv f g) (fun r => Ok (NFloat r))
  end.

(** Exact comparison of a float with an integer; [None] for NaN. *)
Definition float_compare_Z (f : float) (n : Z) : option comparison :=
  match Prim2SF f with
  | S754_nan => None
  | S754_zero _ => Some (0 ?= n)
  | S754_infinity s => Some (if s then Lt else Gt)
  | S754_finite s m e =>
      let sm := if s then Z.neg m else Z.pos m in
      Some (if 0 <=? e then sm * 2 ^ e ?= n else sm ?= n * 2 ^ (- e))
  end.

Definition num_compare_Z (a : num) (n : Z) : option comparison :=
  match a with
  | NInt z => Some (z ?= n)
  | NFloat f => float_compare_Z f n
  end.

(** [v > n] and [v < n] for an int literal [n]: ordering a non-number
    against an int is a [TypeError]. *)
Definition py_gt_int (v : pyval) (n : Z) : exn bool :=
  match as_num v with
  | Some a => Ok (match num_compare_Z a n with Some Gt => true | _ => false end)
  | None => Raise TypeError
  end.

Definition py_lt_int (v : pyval) (n : Z) : exn bool :=
  match as_num v with
  | Some a => Ok (match num_compare_Z a n with Some Lt => true | _ => false end)
  | None => Raise TypeError
  end.

(** ** Strings *)

Definition ascii_lower (c : ascii) : ascii :=
  let n := N_of_ascii c in
  if ((65 <=? n) && (n <=? 90))%N then ascii_of_N (n + 32) else c.

(** [s.lower()] *)
Fixpoint lower (s : string) : string :=
  match s with
  | EmptyString => EmptyString
  | String c s' => String (ascii_lower c) (lower s')
  end.

Fixpoint is_prefix (p s : string) : bool :=
  match p, s with
  | EmptyString, _ => true
  | String a p', String b s' => bool_decide (a = b) && is_prefix p' s'
  | String _ _, EmptyString => false
  end.

(** [p in s] on two strings: [p] occurs in [s]. *)
Fixpoint is_substring (p s : string) : bool :=
  is_prefix p s || match s with EmptyString => false | String _ s' => is_substring p s' end.

(** The characters of a string, each a string of length one. *)
Fixpoint chars (s : string) : list string :=
  match s with
  | EmptyString => []
  | String c s' => String c EmptyString :: chars s'
  end.

Fixpoint repeat_string (n : nat) (s : string) : string :=
  match n with O => EmptyString | S n' => s ++ repeat_string n' s end.

Fixpoint repeat_list {A} (n : nat) (l : list A) : list A :=
  match n with O => [] | S n' => l ++ repeat_list n' l end.

(** ** Operators on values *)

Definition as_int (v : pyval) : option Z :=
  match v with VBool b => Some (Z.b2z b) | VInt z => Some z | _ => None end.

(** [a * b]: numbers multiply; a sequence times an int is repeated. *)
Definition py_mul (a b : pyval) : exn pyval :=
  match as_num a, as_num b with
  | Some x, Some y => exn_bind (num_mul x y) (fun r => Ok (of_num r))
  | _, _ =>
      match a, as_int b, as_int a, b with
      | VStr s, Some n, _, _ | _, _, Some n, VStr s => Ok (VStr (repeat_string (Z.to_nat n) s))
      | VList l, Some n, _, _ | _, _, Some n, VList l => Ok (VList (repeat_list (Z.to_nat n) l))
      | _, _, _, _ => Raise TypeError
      end
  end.

(** [a + b]: numbers add; two strings or two lists concatenate. *)
Definition py_add (a b : pyval) : exn pyval :=
  match as_num a, as_num b with
  | Some x, Some y => exn_bind (num_add x y) (fun r => Ok (of_num r))
  | _, _ =>
      match a, b with
      | VStr s, VStr t => Ok (VStr (s ++ t))
      | VList l, VList k => Ok (VList (l ++ k))
      | _, _ => Raise TypeError
      end
  end.

(** [a / b]: defined on numbers only. *)
Definition py_truediv (a b : pyval) : exn pyval :=
  match as_num a, as_num b with
  | Some x, Some y => exn_bind (num_truediv x y) (fun r => Ok (of_num r))
  | _, _ => Raise TypeError
  end.

(** [len(v)] *)
Definition py_len (v : pyval) : exn Z :=
  match v with
  | VStr s => Ok (Z.of_nat (String.length s))
  | VList l => Ok (Z.of_nat (List.length l))
  | VDict m => Ok (Z.of_nat (size m))
  | _ => Raise TypeError
  end.

(** [k in c] for a string [k]: a key of a dict, an element of a list, a
    substring of a string. *)
Definition py_contains (k : string) (c : pyval) : exn bool :=
  match c with
  | VDict m => Ok (match m !! k with Some _ => true | None => false end)
  | VList l => Ok (existsb (fun x => py_eq_str x k) l)
  | VStr s => Ok (is_substring k s)
  | _ => Raise TypeError
  end.

(** [c[k]] for a string [k]: only a dict can be indexed by a string. *)
Definition py_getitem (c : pyval) (k : string) : exn pyval :=
  match c with
  | VDict m => match m !! k with Some v => Ok v | None => Raise KeyError end
  | _ => Raise TypeError
  end.

(** [c.get(k, default)]: only a dict has the method. *)
Definition py_get (c : pyval) (k : string) (default : pyval) : exn pyval :=
  match c with
  | VDict m => Ok (match m !! k with Some v => v | None => default end)
  | _ => Raise AttributeError
  end.

(** [v.lower()]: only a string has the method. *)
Definition py_lower (v : pyval) : exn string :=
  match v with VStr s => Ok (lower s) | _ => Raise AttributeError end.

(** The items a [for] loop over [v] visits. A dict yields its keys; the
    model lists them in the order of the map's representation, and the one
    loop of the script over a payload value does not depend on the order. *)
Definition py_iter (v : pyval) : exn (list pyval) :=
  match v with
  | VList l => Ok l
  | VStr s => Ok (VStr <$> chars s)
  | VDict m => Ok ((fun kv => VStr kv.1) <$> map_to_list m)
  | _ => Raise TypeError
  end.

(** ** [float(x)] and [int(x)] *)

(** Whitespace that [float] strips from both ends of a string. *)
Definition is_space (c : ascii) : bool :=
  let n := N_of_ascii c in
  ((n =? 32) || ((9 <=? n) && (n <=? 13)) || ((28 <=? n) && (n <=? 31)))%N.

Definition digit_of (c : ascii) : option Z :=
  let n := N_of_ascii c in
  if ((48 <=? n) && (n <=? 57))%N then Some (Z.of_N (n - 48)) else None.

(** Reads a run of digits, single underscores allowed between two digits.
    [acc] is the value read so far, [cnt] the number of digits of this run. *)
Fixpoint digit_run (acc : Z) (cnt : nat) (l : list ascii) {struct l} : Z * nat * list ascii :=
  match l with
  | [] => (acc, cnt, [])
  | c :: l' =>
      match digit_of c with
      | Some d => digit_run (10 * acc + d) (S cnt) l'
      | None =>
          match cnt, l' with
          | S _, c' :: l'' =>
              match bool_decide (c = "_"%char), digit_of c' with
              | true, Some d => digit_run (10 * acc + d) (S cnt) l''
              | _, _ => (acc, cnt, l)
              end
          | _, _ => (acc, cnt, l)
          end
      end
  end.

(** A decimal literal [digits [. digits] [e [+-] digits]] as a mantissa and
    a power of ten. *)
Definition parse_decimal (l : list ascii) : option (Z * Z) :=
  let '(ip, ni, r1) := digit_run 0 0 l in
  let '(m, nf, r2) :=
    match r1 with
    | c :: r => if bool_decide (c = "."%char) then digit_run ip 0 r else (ip, 0%nat, r1)
    | [] => (ip, 0%nat, r1)
    end in
  if bool_decide (ni + nf = 0)%nat then None
  else
    match r2 with
    | [] => Some (m, - Z.of_nat nf)
    | c :: r =>
        if bool_decide (ascii_lower c = "e"%char) then
          let '(neg, r') :=
            match r with
            | s :: x =>
                if bool_decide (s = "+"%char) then (false, x)
                else if bool_decide (s = "-"%char) then (true, x)
                else (false, r)
            | [] => (false, r)
            end in
          let '(ev, ne, r3) := digit_run 0 0 r' in
          match ne, r3 with
          | S _, [] => Some (m, (if neg then - ev else ev) - Z.of_nat nf)
          | _, _ => None
          end
        else None
    end.

(** The binary64 value nearest to [m * 10 ^ e] for [m >= 0]. *)
Definition decimal_to_float (m e : Z) : float :=
  if m =? 0 then 0%float
  else if 0 <=? e then nearest_float (m * 10 ^ e)
  else round_quotient false m (10 ^ (- e)).

Definition strip (l : list ascii) : list ascii :=
  let drop := fix drop (l : list ascii) :=
    match l with c :: l' => if is_space c then drop l' else l | [] => [] end in
  rev (drop (rev (drop l))).

(** [float(s)] for a string: surrounding whitespace, a sign, then [inf],
    [infinity], [nan] (any case) or a decimal literal; [ValueError]
    otherwise. A literal out of range gives an infinity. *)
Definition float_of_string (s : string) : exn float :=
  let l := strip (list_ascii_of_string s) in
  let '(neg, body) :=
    match l with
    | c :: x =>
        if bool_decide (c = "+"%char) then (false, x)
        else if bool_decide (c = "-"%char) then (true, x)
        else (false, l)
    | [] => (false, l)
    end in
  let sign (f : float) := if neg then PrimFloat.opp f else f in
  let word := lower (string_of_list_ascii body) in
  if bool_decide (word = "inf") || bool_decide (word = "infinity") then Ok (sign infinity)
  else if bool_decide (word = "nan") then Ok nan
  else
    match parse_decimal body with
    | Some (m, e) => Ok (sign (decimal_to_float m e))
    | None => Raise ValueError
    end.

(** [float(v)] *)
Definition py_float (v : pyval) : exn float :=
  match v with
  | VFloat f => Ok f
  | VInt z => float_of_Z z
  | VBool b => float_of_Z (Z.b2z b)
  | VStr s => float_of_string s
  | _ => Raise TypeError
  end.

(** [int(f)] for a float: truncation toward zero. *)
Definition int_of_float (f : float) : exn Z :=
  match Prim2SF f with
  | S754_nan => Raise ValueError
  | S754_infinity _ => Raise OverflowError
  | S754_zero _ => Ok 0
  | S754_finite s m e =>
      let a := if 0 <=? e then Z.pos m * 2 ^ e else Z.pos m / 2 ^ (- e) in
      Ok (if s then - a else a)
  end.

(** ** The monad of a normalizer body

    Each payload normalizer has one local variable, its parameter, which it
    rebinds once (to the decoded JSON) and then mutates in place. The state
    is the object bound to that variable; a raise keeps the state, because
    the [except] clause returns the same, already mutated, object. *)

Definition M (A : Type) : Type := pyval -> exn A * pyval.

Definition ret {A} (a : A) : M A := fun s => (Ok a, s).

Definition bind {A B} (m : M A) (f : A -> M B) : M B :=
  fun s => match m s with
           | (Ok a, s') => f a s'
           | (Raise e, s') => (Raise e, s')
           end.

Declare Scope py_scope.
Delimit Scope py_scope with py.
Notation "x <- m ;; k" := (bind m (fun x => k))
  (at level 100, m at next level, right associativity) : py_scope.
Notation "m ;; k" := (bind m (fun _ => k))
  (at level 100, right associativity) : py_scope.
Notation "x <~ m ;; k" := (exn_bind m (fun x => k))
  (at level 100, m at next level, right associativity) : py_scope.
#[local] Open Scope py_scope.

(** An expression that reads no variable. *)
Definition lift {A} (x : exn A) : M A := fun s => (x, s).

(** The object currently bound to the parameter. *)
Definition read : M pyval := fun s => (Ok s, s).

(** [data = v] *)
Definition rebind (v : pyval) : M unit := fun _ => (Ok tt, v).

(** [data[k] = v]: item assignment with a string key needs a dict. *)
Definition setitem (k : string) (v : pyval) : M unit :=
  fun s => match s with
           | VDict m => (Ok tt, VDict (<[k := v]> m))
           | _ => (Raise TypeError, s)
           end.

(** [k in data], [k not in data], [data[k]], [data.get(k, default)] *)
Definition contains (k : string) : M bool := s <- read ;; lift (py_contains k s).
Definition not_contains (k : string) : M bool := c <- contains k ;; ret (negb c).
Definition getitem (k : string) : M pyval := s <- read ;; lift (py_getitem s k).
Definition get (k : string) (default : pyval) : M pyval := s <- read ;; lift (py_get s k default).

(** [a and b] in a condition: [b] is evaluated only when [a] is true. *)
Definition and_then (a b : M bool) : M bool := x <- a ;; if x then b else ret false.

(** [if c: body] *)
Definition when (c : bool) (body : M unit) : M unit := if c then body else ret tt.

(** The object bound to the parameter when the body ends, normally or by a
    raise: what [return data] returns on both paths. *)
Definition final {A} (body : M A) (s : pyval) : pyval := snd (body s).

(** ** The payload normalizers *)

(** [sum(vs)]: left-to-right addition starting from the int [0], each float
    sum rounded as it is made. *)
Definition py_sum (vs : list pyval) : exn pyval :=
  fold_left (fun acc v => a <~ acc ;; py_add a v) vs (Ok (VInt 0)).

(** [[dp.get('value', 0) for dp in data_points if 'value' in dp]] *)
Fixpoint bpm_values_of (data_points : list pyval) : exn (list pyval) :=
  match data_points with
  | [] => Ok []
  | dp :: rest =>
      c <~ py_contains "value" dp ;;
      if c then
        v <~ py_get dp "value" (VInt 0) ;;
        vs <~ bpm_values_of rest ;;
        Ok (v :: vs)
      else bpm_values_of rest
  end.

Definition stage_mapping : list (string * list string) :=
  [ ("light", ["light"; "light_sleep"]);
    ("deep", ["deep"; "deep_sleep"; "slow_wave"]);
    ("rem", ["rem"; "rem_sleep"; "rapid_eye_movement"]);
    ("awake", ["awake"; "wake"; "wakefulness"]) ].

(** The inner loop over the variations of one standard stage. *)
Fixpoint scan_variations (stages : pyval) (standard_stage : string)
    (variations : list string) (normalized_stages : gmap string pyval)
    : exn (gmap string pyval) :=
  match variations with
  | [] => Ok normalized_stages
  | variation :: rest =>
      c <~ py_contains variation stages ;;
      if c then
        v <~ py_getitem stages variation ;;
        scan_variations stages standard_stage rest (<[standard_stage := v]> normalized_stages)
      else scan_variations stages standard_stage rest normalized_stages
  end.

(** The outer loop over [stage_mapping.items()]. *)
Fixpoint scan_stages (stages : pyval) (mapping : list (string * list string))
    (normalized_stages : gmap string pyval) : exn (gmap string pyval) :=
  match mapping with
  | [] => Ok normalized_stages
  | (standard_stage, variations) :: rest =>
      ns <~ scan_variations stages standard_stage variations normalized_stages ;;
      scan_stages stages rest ns
  end.

Section Normalizers.

(** [json.loads]: the decoded value, or the exception it raises. *)
Variable json_loads : string -> exn pyval.

(** [if isinstance(data, str): data = json.loads(data)] *)
Definition decode_if_str : M unit :=
  s <- read ;;
  match s with
  | VStr text => v <- lift (json_loads text) ;; rebind v
  | _ => ret tt
  end.

(** *** [normalize_heart_rate] (lines 90-133) *)

(** 1. Convert from normalized values (0-1) to BPM (lines 101-109). *)
Definition heart_rate_from_normalized : M unit :=
  c <- and_then (contains "normalized")
                (u <- get "unit" VNone ;; ret (py_eq_str u "normalized")) ;;
  when c (
    c' <- and_then (a <- get "avg_normalized" (VInt 0) ;; lift (py_gt_int a 0))
                   (a <- get "avg_normalized" (VInt 0) ;; lift (py_lt_int a 1)) ;;
    when c' (
      let min_hr := 40 in
      let max_hr := 220 in
      let range_hr := max_hr - min_hr in
      a <- getitem "avg_normalized" ;;
      p <- lift (py_mul a (VInt range_hr)) ;;
      r <- lift (py_add (VInt min_hr) p) ;;
      setitem "avg_bpm" r ;;
      setitem "unit" (VStr "bpm"))).

(** 2. Ensure 'bpm' is the unit (lines 111-116). *)
Definition heart_rate_unit : M unit :=
  c <- contains "unit" ;;
  if c then
    u <- getitem "unit" ;;
    l <- lift (py_lower u) ;;
    when (bool_decide (l ∈ ["bpm"; "beats_per_minute"; "beats per minute"]))
         (setitem "unit" (VStr "bpm"))
  else setitem "unit" (VStr "bpm").

(** 3. If avg_hr exists but avg_bpm doesn't, copy the value (lines 118-120). *)
Definition heart_rate_from_avg_hr : M unit :=
  c <- and_then (contains "avg_hr") (not_contains "avg_bpm") ;;
  when c (v <- getitem "avg_hr" ;; setitem "avg_bpm" v).

(** 4. Default values if missing: the mean of the data points (lines 122-128). *)
Definition heart_rate_from_data_points : M unit :=
  c <- and_then (not_contains "avg_bpm") (contains "data_points") ;;
  when c (
    data_points <- get "data_points" (VList []) ;;
    c' <- and_then (ret (py_truth data_points))
                   (n <- lift (py_len data_points) ;; ret (0 <? n)) ;;
    when c' (
      items <- lift (py_iter data_points) ;;
      bpm_values <- lift (bpm_values_of items) ;;
      when (py_truth (VList bpm_values)) (
        total <- lift (py_sum bpm_values) ;;
        n <- lift (py_len (VList bpm_values)) ;;
        avg <- lift (py_truediv total (VInt n)) ;;
        setitem "avg_bpm" avg))).

(** The body of the [try] block (lines 95-128). *)
Definition heart_rate_body : M unit :=
  decode_if_str ;;
  heart_rate_from_normalized ;;
  heart_rate_unit ;;
  heart_rate_from_avg_hr ;;
  heart_rate_from_data_points.

(** [None] is returned at once; otherwise both [return] statements, the one
    that ends the [try] block and the one of the [except] clause, return
    the object bound to the parameter at that point. *)
Definition normalize_heart_rate (heart_rate_data : pyval) : pyval :=
  if is_none heart_rate_data then VNone
  else final heart_rate_body heart_rate_data.

(** *** [normalize_activity] (lines 136-181) *)

(** 1. Normalize distance to meters (lines 145-160). *)
Definition activity_distance : M unit :=
  c <- contains "distance" ;;
  when c (
    distance <- getitem "distance" ;;
    u <- get "distance_unit" (VStr "meters") ;;
    distance_unit <- lift (py_lower u) ;;
    (if bool_decide (distance_unit = "km") || bool_decide (distance_unit = "kilometers") then
       p <- lift (py_mul distance (VInt 1000)) ;; setitem "distance_meters" p
     else if bool_decide (distance_unit = "mi") || bool_decide (distance_unit = "miles") then
       p <- lift (py_mul distance (VFloat 1609.34)) ;; setitem "distance_meters" p
     else if bool_decide (distance_unit = "ft") || bool_decide (distance_unit = "feet") then
       p <- lift (py_mul distance (VFloat 0.3048)) ;; setitem "distance_meters" p
     else setitem "distance_meters" distance) ;;
    setitem "distance_unit" (VStr "meters")).

(** 2. Normalize calories (lines 162-172). *)
Definition activity_calories : M unit :=
  c1 <- and_then (contains "calories") (not_contains "total_calories") ;;
  if c1 then v <- getitem "calories" ;; setitem "total_calories" v
  else
    c2 <- and_then (contains "active_calories") (not_contains "total_calories") ;;
    when c2 (
      c3 <- contains "duration_ms" ;;
      if c3 then
        duration_ms <- getitem "duration_ms" ;;
        hours <- lift (py_truediv duration_ms (VInt (1000 * 60 * 60))) ;;
        rate <- lift (py_truediv (VInt 1800) (VInt 24)) ;;
        bmr_calories <- lift (py_mul rate hours) ;;
        active <- getitem "active_calories" ;;
        total <- lift (py_add active bmr_calories) ;;
        setitem "total_calories" total
      else
        active <- getitem "active_calories" ;;
        setitem "total_calories" active).

(** 3. Normalize steps (ensure it's an integer) (lines 174-176). *)
Definition activity_steps : M unit :=
  c <- and_then (contains "steps") (v <- getitem "steps" ;; ret (negb (is_none v))) ;;
  when c (
    v <- getitem "steps" ;;
    f <- lift (py_float v) ;;
    n <- lift (int_of_float f) ;;
    setitem "steps" (VInt n)).

Definition activity_body : M unit :=
  decode_if_str ;;
  activity_distance ;;
  activity_calories ;;
  activity_steps.

Definition normalize_activity (activity_data : pyval) : pyval :=
  if is_none activity_data then VNone
  else final activity_body activity_data.

(** *** [normalize_sleep] (lines 184-234) *)

(** 1. Normalize sleep duration to milliseconds (lines 193-208). *)
Definition sleep_duration : M unit :=
  c <- and_then (contains "sleep_duration") (not_contains "sleep_duration_ms") ;;
  when c (
    duration <- getitem "sleep_duration" ;;
    u <- get "duration_unit" (VStr "seconds") ;;
    duration_unit <- lift (py_lower u) ;;
    (if bool_decide (duration_unit = "seconds") || bool_decide (duration_unit = "s") then
       p <- lift (py_mul duration (VInt 1000)) ;; setitem "sleep_duration_ms" p
     else if bool_decide (duration_unit = "minutes") || bool_decide (duration_unit = "min") then
       p <- lift (p1 <~ py_mul duration (VInt 60) ;; py_mul p1 (VInt 1000)) ;;
       setitem "sleep_duration_ms" p
     else if bool_decide (duration_unit = "hours") || bool_decide (duration_unit = "h") then
       p <- lift (p1 <~ py_mul duration (VInt 60) ;;
                  p2 <~ py_mul p1 (VInt 60) ;;
                  py_mul p2 (VInt 1000)) ;;
       setitem "sleep_duration_ms" p
     else setitem "sleep_duration_ms" duration) ;;
    setitem "duration_unit" (VStr "ms")).

(** 2. Normalize sleep stages (lines 210-229). *)
Definition sleep_stages : M unit :=
  c <- contains "stages" ;;
  when c (
    stages <- getitem "stages" ;;
    normalized_stages <- lift (scan_stages stages stage_mapping ∅) ;;
    setitem "normalized_stages" (VDict normalized_stages)).

Definition sleep_body : M unit :=
  decode_if_str ;;
  sleep_duration ;;
  sleep_stages.

Definition normalize_sleep (sleep_data : pyval) : pyval :=
  if is_none sleep_data then VNone
  else final sleep_body sleep_data.

End Normalizers.

(** ** Timestamps *)

(** The date and time libraries the script calls. *)
Class DateLib : Type := {
  (** [datetime.datetime] *)
  datetime : Type;
  (** [dateutil.parser.parse(s)] *)
  parse : string -> exn datetime;
  (** [dt.tzinfo is None] *)
  tzinfo_is_none : datetime -> bool;
  (** [pytz.timezone('America/New_York').localize(dt)] *)
  localize : datetime -> exn datetime;
  (** [dt.astimezone(pytz.UTC)] *)
  astimezone_utc : datetime -> exn datetime;
  (** [str(dt)] *)
  str_of : datetime -> string;
  (** The instant an aware datetime denotes, in microseconds since the epoch. *)
  instant : datetime -> Z;
}.

(** What the idempotence of the conversion needs from the libraries:
    converting an aware datetime to UTC keeps its instant; the rendering of
    a UTC datetime parses back to an aware datetime for the same instant;
    and an aware datetime for an instant that UTC can represent converts
    to UTC. *)
Class DateLibLaws (L : DateLib) : Prop := {
  astimezone_utc_instant :
    forall x u, tzinfo_is_none x = false -> astimezone_utc x = Ok u -> instant u = instant x;
  parse_str_of_utc :
    forall x u, astimezone_utc x = Ok u ->
      exists r, parse (str_of u) = Ok r /\ tzinfo_is_none r = false /\ instant r = instant u;
  astimezone_utc_defined :
    forall x u r, astimezone_utc x = Ok u -> tzinfo_is_none r = false -> instant r = instant u ->
      exists u', astimezone_utc r = Ok u';
}.

(** [try: body except Exception as e: handler] *)
Definition try_except {A} (body : exn A) (handler : pyexn -> exn A) : exn A :=
  match body with
  | Ok a => Ok a
  | Raise e => handler e
  end.

Section Timestamps.

Context {L : DateLib}.

(** [convert_to_utc] (lines 70-87). The handler also prints a diagnostic,
    which the model does not record. *)
Definition convert_to_utc (timestamp_str : option string) : exn (option datetime) :=
  match timestamp_str with
  | None => Ok None
  | Some s =>
      try_except
        (dt <~ parse s ;;
         dt <~ (if tzinfo_is_none dt then localize dt else Ok dt) ;;
         utc_dt <~ astimezone_utc dt ;;
         Ok (Some utc_dt))
        (fun _ => Ok None)
  end.

End Timestamps.

(** ** Rows *)

(** A row of [wearable_df]: the columns the normalization reads ([row_id]
    is the column [_id]). *)
Record raw_row : Type := {
  row_id : string;
  user_id : string;
  data_type : string;
  start_date : option string;
  end_date : option string;
  date : option string;
  heart_rate : pyval;
  activity : pyval;
  sleep : pyval;
}.

(** A row of [normalized_df]: the source row and the six added columns. *)
Record normalized_row {L : DateLib} : Type := {
  source : raw_row;
  start_date_utc : option datetime;
  end_date_utc : option datetime;
  date_utc : option datetime;
  normalized_heart_rate : pyval;
  normalized_activity : pyval;
  normalized_sleep : pyval;
}.

Section Rows.

Context {L : DateLib}.
Variable json_loads : string -> exn pyval.

(** The chain of [withColumn] calls (lines 243-249), on one row. The model stops at the
    value each function returns. *)
Definition normalized_df (row : raw_row) : exn normalized_row :=
  s <~ convert_to_utc (start_date row) ;;
  e <~ convert_to_utc (end_date row) ;;
  d <~ convert_to_utc (date row) ;;
  Ok {| source := row;
        start_date_utc := s;
        end_date_utc := e;
        date_utc := d;
        normalized_heart_rate := normalize_heart_rate json_loads (heart_rate row);
        normalized_activity := normalize_activity json_loads (activity row);
        normalized_sleep := normalize_sleep json_loads (sleep row) |}.

End Rows.

(** A dict literal. *)
Definition mk_dict (items : list (string * pyval)) : pyval := VDict (list_to_map items).

(** [field v k]: the value under key [k] when [v] is a dict that has it. *)
Definition field (v : pyval) (k : string) : option pyval :=
  match v with VDict m => m !! k | _ => None end.

(** ** Frame reasoning for normalizer bodies *)

(** [extends W d d']: [d'] agrees with [d] outside the keys [W] and has
    every key of [d]. *)
Definition extends (W : list string) (d d' : gmap string pyval) : Prop :=
  (forall k, k ∉ W -> d' !! k = d !! k) /\ (forall k, is_Some (d !! k) -> is_Some (d' !! k)).

(** [frames W m]: started on a dict, [m] ends on a dict that extends it on
    [W], whether it returns or raises. *)
Definition frames (W : list string) {A} (m : M A) : Prop :=
  forall d, exists r d', m (VDict d) = (r, VDict d') /\ extends W d d'.


(** ** What the specification says, as definitions *)

(** The keys the rules of the three normalizers assign. *)
Definition written_keys : list string :=
  [ "avg_bpm"; "unit";
    "distance_meters"; "distance_unit"; "total_calories"; "steps";
    "sleep_duration_ms"; "duration_unit"; "normalized_stages" ].

(** [declared d k u]: the unit key [k] of [d] is absent ([u = None]) or
    bound to the string [u]. *)
Definition declared (d : gmap string pyval) (k : string) (u : option string) : Prop :=
  d !! k = VStr <$> u.

(** The spellings of the heart-rate unit that count as bpm, compared
    case-insensitively; an absent unit counts as bpm too. *)
Definition bpm_spelling (unit : option string) : Prop :=
  match unit with
  | None => True
  | Some u => lower u ∈ ["bpm"; "beats_per_minute"; "beats per minute"]
  end.

(** The factor the specification gives for a distance unit, compared
    case-insensitively; [None] stands for "any other or absent unit". *)
Definition distance_factor (unit : option string) : option pyval :=
  match unit with
  | None => None
  | Some u =>
      if bool_decide (lower u ∈ ["km"; "kilometers"]) then Some (VInt 1000)
      else if bool_decide (lower u ∈ ["mi"; "miles"]) then Some (VFloat 1609.34)
      else if bool_decide (lower u ∈ ["ft"; "feet"]) then Some (VFloat 0.3048)
      else None
  end.

(** [distance_meters] as the specification computes it: the product with
    the factor of the unit, the distance itself for another or absent unit. *)
Definition spec_distance_meters (distance : pyval) (unit : option string) : exn pyval :=
  match distance_factor unit with
  | Some factor => py_mul distance factor
  | None => Ok distance
  end.

(** The factors the specification gives for a duration unit, multiplied in
    turn; no factor for another unit. An absent unit counts as seconds. *)
Definition duration_factors (unit : option string) : list Z :=
  match unit with
  | None => [1000]
  | Some u =>
      if bool_decide (lower u ∈ ["seconds"; "s"]) then [1000]
      else if bool_decide (lower u ∈ ["minutes"; "min"]) then [60; 1000]
      else if bool_decide (lower u ∈ ["hours"; "h"]) then [60; 60; 1000]
      else []
  end.

Definition spec_sleep_duration_ms (duration : pyval) (unit : option string) : exn pyval :=
  fold_left (fun acc k => a <~ acc ;; py_mul a (VInt k)) (duration_factors unit) (Ok duration).

(** The value of the first, and of the last, alias that a stage mapping has. *)
Definition first_present (stages : gmap string pyval) (aliases : list string) : option pyval :=
  head (omap (fun a => stages !! a) aliases).

Definition last_present (stages : gmap string pyval) (aliases : list string) : option pyval :=
  last (omap (fun a => stages !! a) aliases).

Definition canonical_stages : list string := ["light"; "deep"; "rem"; "awake"].

(** A payload column is populated when it is not null. *)
Definition populated (v : pyval) : bool := negb (is_none v).

(** The names of the populated canonical payloads of a normalized row. *)
Definition populated_payloads {L : DateLib} (out : normalized_row) : list string :=
  (if populated (normalized_heart_rate out) then ["heart_rate"] else []) ++
  (if populated (normalized_activity out) then ["activity"] else []) ++
  (if populated (normalized_sleep out) then ["sleep"] else []).

(** Dispatch by tag, as the specification states it: exactly the payload
    named by a recognized tag is populated, and none for another tag. *)
Definition dispatched_by_tag {L : DateLib} (out : normalized_row) : Prop :=
  populated_payloads out =
    if bool_decide (data_type (source out) ∈ ["heart_rate"; "activity"; "sleep"])
    then [data_type (source out)] else [].

Definition with_data_type (tag : string) (row : raw_row) : raw_row :=
  {| row_id := row_id row; user_id := user_id row; data_type := tag;
     start_date := start_date row; end_date := end_date row; date := date row;
     heart_rate := heart_rate row; activity := activity row; sleep := sleep row |}.

(** ** Two records for the row-level scenarios *)

(** A sleep record that also carries a heart-rate payload. *)
Definition sleep_row_with_heart_rate : raw_row :=
  {| row_id := "65e1a2"; user_id := "u1"; data_type := "sleep";
     start_date := None; end_date := None; date := None;
     heart_rate := mk_dict [("avg_hr", VInt 58)];
     activity := VNone;
     sleep := mk_dict [("sleep_duration", VInt 8); ("duration_unit", VStr "hours")] |}.

(** A record with a tag that is not one of the three, carrying an activity
    payload. *)
Definition workout_row : raw_row :=
  {| row_id := "65e1a3"; user_id := "u1"; data_type := "workout";
     start_date := None; end_date := None; date := None;
     heart_rate := VNone;
     activity := mk_dict [("steps", VInt 4000)];
     sleep := VNone |}.

(** ** A small date library

    An instance of [DateLib] for evaluating the timestamp conversion: a
    timestamp is a count of seconds, written in decimal; a leading [@]
    marks seconds since the epoch in UTC, and a bare number is a
    wall-clock reading with no zone. New York is taken at its standard
    offset of five hours. *)
Module EpochLib.

Record t : Type := { wall : Z; utcoffset : option Z }.

Definition of_decimal (s : string) (off : option Z) : exn t :=
  match DecimalString.NilZero.int_of_string s with
  | Some i => Ok {| wall := Z.of_int i; utcoffset := off |}
  | None => Raise ValueError
  end.

Definition parse_epoch (s : string) : exn t :=
  match s with
  | String "@" rest => of_decimal rest (Some 0)
  | _ => of_decimal s None
  end.

Definition to_decimal (z : Z) : string :=
  DecimalString.NilZero.string_of_int (Z.to_int z).

Definition render (dt : t) : string :=
  match utcoffset dt with
  | Some off => String "@" (to_decimal (wall dt - off))
  | None => to_decimal (wall dt)
  end.

Definition localize_est (dt : t) : exn t :=
  match utcoffset dt with
  | None => Ok {| wall := wall dt; utcoffset := Some (- 18000) |}
  | Some _ => Raise ValueError
  end.

Definition to_utc (dt : t) : exn t :=
  match utcoffset dt with
  | Some off => Ok {| wall := wall dt - off; utcoffset := Some 0 |}
  | None => Raise ValueError
  end.

Definition micros (dt : t) : Z := 1000000 * (wall dt - default 0 (utcoffset dt)).

Definition lib : DateLib :=
  {| datetime := t;
     parse := parse_epoch;
     tzinfo_is_none := fun dt => bool_decide (utcoffset dt = None);
     localize := localize_est;
     astimezone_utc := to_utc;
     str_of := render;
     instant := micros |}.

End EpochLib.

(** ** Definitions for the properties beyond the claims *)

Definition is_dict (v : pyval) : bool :=
  match v with VDict _ => true | _ => false end.

Definition is_str (v : pyval) : bool :=
  match v with VStr _ => true | _ => false end.

(** [inert m]: started on an object that is not a dict, [m] leaves the
    parameter bound to that object, whether it returns or raises. *)
Definition inert {A} (m : M A) : Prop :=
  forall s, is_dict s = false -> snd (m s) = s.

(** A decoder that reads one text: it stands for [json.loads] where a
    statement needs a concrete one. *)
Definition decode_only (text : string) (v : pyval) : string -> exn pyval :=
  fun s => if bool_decide (s = text) then Ok v else Raise JSONDecodeError.

(** All the aliases of [stage_mapping]. *)
Definition stage_aliases : list string := concat (snd <$> stage_mapping).

(** The [value]s of the data points that are mappings with a [value]. *)
Definition point_values (points : list (gmap string pyval)) : list pyval :=
  omap (fun p => p !! "value") points.

(** The total that the calories rule estimates from the active calories
    (lines 167-172): the active calories plus 75.0 calories for every hour
    of [duration_ms], or the active calories alone without a duration. *)
Definition estimated_total_calories (active : pyval) (duration_ms : option pyval) : exn pyval :=
  match duration_ms with
  | Some t =>
      hours <~ py_truediv t (VInt 3600000) ;;
      bmr_calories <~ py_mul (VFloat 75) hours ;;
      py_add active bmr_calories
  | None => Ok active
  end.

(** [int(float(v))] (line 176). *)
Definition steps_as_int (v : pyval) : exn pyval :=
  f <~ py_float v ;;
  n <~ int_of_float f ;;
  Ok (VInt n).

(** [sum(bpm_values) / len(bpm_values)] (line 128). *)
Definition mean_of (bpm_values : list pyval) : exn pyval :=
  total <~ py_sum bpm_values ;;
  py_truediv total (VInt (Z.of_nat (length bpm_values))).

(** * Sanity checks of the value model *)

Example float_of_string_ex1 : float_of_string "120.7" = Ok 120.7%float.
Proof. vm_compute. reflexivity. Qed.
Example float_of_string_ex2 : float_of_string " -1_0.5e-1 " = Ok (-1.05)%float.
Proof. vm_compute. reflexivity. Qed.
Example float_of_string_ex3 : float_of_string "abc" = Raise ValueError.
Proof. vm_compute. reflexivity. Qed.
Example float_of_string_ex4 : float_of_string "0.1" = Ok 0.1%float /\ float_of_string "1e23" = Ok 1e23%float
  /\ float_of_string "5e-324" = Ok 5e-324%float /\ float_of_string "1.7976931348623157e308" = Ok 1.7976931348623157e308%float.
Proof. vm_compute. repeat split; reflexivity. Qed.
Example float_of_string_ex5 : float_of_string "1e999" = Ok infinity /\ float_of_string "_1" = Raise ValueError
  /\ float_of_string "1__0" = Raise ValueError /\ float_of_string "." = Raise ValueError /\ float_of_string "1." = Ok 1%float
  /\ float_of_string "" = Raise ValueError /\ float_of_string "-Infinity" = Ok neg_infinity.
Proof. vm_compute. repeat split; reflexivity. Qed.
Example int_of_float_ex : int_of_float 120.7%float = Ok 120 /\ int_of_float (-120.7)%float = Ok (-120).
Proof. vm_compute. split; reflexivity. Qed.
Example truediv_ex : Z_truediv 1 3 = Ok (1 / 3)%float /\ Z_truediv 135 2 = Ok 67.5%float
  /\ Z_truediv (10 ^ 400) (10 ^ 399) = Ok 10%float /\ Z_truediv 0 (-5) = Ok (-0)%float.
Proof. vm_compute. repeat split; reflexivity. Qed.
Example py_mul_ex : py_mul (VStr "ab") (VInt 3) = Ok (VStr "ababab") /\ py_mul (VBool true) (VStr "ab") = Ok (VStr "ab")
  /\ py_mul (VStr "ab") (VFloat 2) = Raise TypeError /\ py_mul (VInt 2) (VFloat 1609.34) = Ok (VFloat 3218.68)
  /\ py_mul VNone (VInt 1000) = Raise TypeError /\ py_mul (VStr "a") (VStr "b") = Raise TypeError
  /\ py_mul (VInt (10 ^ 400)) (VFloat 0.3048) = Raise OverflowError.
Proof. vm_compute. repeat split; reflexivity. Qed.


(** * Frame lemmas *)

Lemma extends_refl W d : extends W d d.
Proof. split; auto. Qed.

Lemma extends_trans W d1 d2 d3 : extends W d1 d2 -> extends W d2 d3 -> extends W d1 d3.
Proof.
  intros [H1 K1] [H2 K2]. split.
  - intros k Hk. rewrite H2, H1; auto.
  - auto.
Qed.

Lemma extends_insert W d k v : k ∈ W -> extends W d (<[k := v]> d).
Proof.
  intros Hk. split.
  - intros j Hj. apply lookup_insert_ne. intros ->. contradiction.
  - intros j Hj. rewrite lookup_insert_is_Some. destruct (decide (k = j)); auto.
Qed.

Lemma extends_weaken W W' d d' : W ⊆ W' -> extends W d d' -> extends W' d d'.
Proof.
  intros Hsub [H K]. split; [| exact K].
  intros k Hk. apply H. intros Hin. apply Hk, Hsub, Hin.
Qed.

Section Frames.

Context (W : list string).

Lemma frames_ret {A} (a : A) : frames W (ret a).
Proof. intros d. exists (Ok a), d. split; [reflexivity | apply extends_refl]. Qed.

Lemma frames_lift {A} (x : exn A) : frames W (lift x).
Proof. intros d. exists x, d. split; [reflexivity | apply extends_refl]. Qed.

Lemma frames_read : frames W read.
Proof. intros d. exists (Ok (VDict d)), d. split; [reflexivity | apply extends_refl]. Qed.

Lemma frames_bind {A B} (m : M A) (f : A -> M B) :
  frames W m -> (forall a, frames W (f a)) -> frames W (bind m f).
Proof.
  intros Hm Hf d. destruct (Hm d) as (r & d1 & E1 & X1).
  unfold bind. rewrite E1. destruct r as [a | e].
  - destruct (Hf a d1) as (r2 & d2 & E2 & X2).
    exists r2, d2. split; [exact E2 | eapply extends_trans; eassumption].
  - exists (Raise e), d1. split; [reflexivity | exact X1].
Qed.

Lemma frames_setitem k v : k ∈ W -> frames W (setitem k v).
Proof.
  intros Hk d. exists (Ok tt), (<[k := v]> d).
  split; [reflexivity | apply extends_insert, Hk].
Qed.

Lemma frames_if {A} (c : bool) (a b : M A) :
  frames W a -> frames W b -> frames W (if c then a else b).
Proof. destruct c; auto. Qed.

Lemma frames_contains k : frames W (contains k).
Proof. apply frames_bind; [apply frames_read | intros; apply frames_lift]. Qed.

Lemma frames_not_contains k : frames W (not_contains k).
Proof. apply frames_bind; [apply frames_contains | intros; apply frames_ret]. Qed.

Lemma frames_getitem k : frames W (getitem k).
Proof. apply frames_bind; [apply frames_read | intros; apply frames_lift]. Qed.

Lemma frames_get k v : frames W (get k v).
Proof. apply frames_bind; [apply frames_read | intros; apply frames_lift]. Qed.

Lemma frames_and_then (a b : M bool) : frames W a -> frames W b -> frames W (and_then a b).
Proof.
  intros Ha Hb. apply frames_bind; [exact Ha | intros c].
  apply frames_if; [exact Hb | apply frames_ret].
Qed.

Lemma frames_when c (body : M unit) : frames W body -> frames W (when c body).
Proof. intros H. apply frames_if; [exact H | apply frames_ret]. Qed.

(** On a dict there is nothing to decode. *)
Lemma frames_decode_if_str json_loads : frames W (decode_if_str json_loads).
Proof. intros d. exists (Ok tt), d. split; [reflexivity | apply extends_refl]. Qed.

End Frames.

Lemma frames_weaken W W' {A} (m : M A) : W ⊆ W' -> frames W m -> frames W' m.
Proof.
  intros Hsub Hm d. destruct (Hm d) as (r & d' & E & X).
  exists r, d'. split; [exact E | eapply extends_weaken; eassumption].
Qed.

Create HintDb frames.
#[export] Hint Resolve frames_ret frames_lift frames_read frames_bind frames_if
  frames_contains frames_not_contains frames_getitem frames_get frames_and_then
  frames_when frames_decode_if_str : frames.
#[export] Hint Extern 1 (frames _ (setitem _ _)) => apply frames_setitem; set_solver : frames.

Lemma frames_heart_rate_from_normalized : frames ["avg_bpm"; "unit"] heart_rate_from_normalized.
Proof. unfold heart_rate_from_normalized. eauto 20 with frames. Qed.

Lemma frames_heart_rate_unit : frames ["avg_bpm"; "unit"] heart_rate_unit.
Proof. unfold heart_rate_unit. eauto 20 with frames. Qed.

Lemma frames_heart_rate_from_avg_hr : frames ["avg_bpm"] heart_rate_from_avg_hr.
Proof. unfold heart_rate_from_avg_hr. eauto 20 with frames. Qed.

Lemma frames_heart_rate_from_data_points : frames ["avg_bpm"] heart_rate_from_data_points.
Proof. unfold heart_rate_from_data_points. eauto 30 with frames. Qed.

Lemma frames_activity_distance : frames ["distance_meters"; "distance_unit"] activity_distance.
Proof. unfold activity_distance. eauto 30 with frames. Qed.

Lemma frames_activity_calories : frames ["total_calories"] activity_calories.
Proof. unfold activity_calories. eauto 30 with frames. Qed.

Lemma frames_activity_steps : frames ["steps"] activity_steps.
Proof. unfold activity_steps. eauto 20 with frames. Qed.

Lemma frames_sleep_duration : frames ["sleep_duration_ms"; "duration_unit"] sleep_duration.
Proof. unfold sleep_duration. eauto 30 with frames. Qed.

Lemma frames_sleep_stages : frames ["normalized_stages"] sleep_stages.
Proof. unfold sleep_stages. eauto 20 with frames. Qed.

(** * The normalizers on mapping payloads *)

Ltac frames_rule lem := eapply frames_weaken; [| apply lem]; set_solver.

Lemma frames_heart_rate_body json_loads :
  frames ["avg_bpm"; "unit"] (heart_rate_body json_loads).
Proof.
  unfold heart_rate_body.
  repeat (apply frames_bind; [| intros _]).
  - apply frames_decode_if_str.
  - apply frames_heart_rate_from_normalized.
  - apply frames_heart_rate_unit.
  - frames_rule frames_heart_rate_from_avg_hr.
  - frames_rule frames_heart_rate_from_data_points.
Qed.

Lemma frames_activity_body json_loads :
  frames ["distance_meters"; "distance_unit"; "total_calories"; "steps"]
         (activity_body json_loads).
Proof.
  unfold activity_body.
  repeat (apply frames_bind; [| intros _]).
  - apply frames_decode_if_str.
  - frames_rule frames_activity_distance.
  - frames_rule frames_activity_calories.
  - frames_rule frames_activity_steps.
Qed.

Lemma frames_sleep_body json_loads :
  frames ["sleep_duration_ms"; "duration_unit"; "normalized_stages"]
         (sleep_body json_loads).
Proof.
  unfold sleep_body.
  repeat (apply frames_bind; [| intros _]).
  - apply frames_decode_if_str.
  - frames_rule frames_sleep_duration.
  - frames_rule frames_sleep_stages.
Qed.

Lemma final_frames W {A} (m : M A) d :
  frames W m -> exists d', final m (VDict d) = VDict d' /\ extends W d d'.
Proof.
  intros Hm. destruct (Hm d) as (r & d' & E & X).
  exists d'. unfold final. rewrite E. auto.
Qed.

(** Running two steps in a row: the second starts where the first stopped,
    unless the first raised. *)
Lemma final_bind {A B} (m : M A) (f : A -> M B) s :
  final (bind m f) s =
    match m s with
    | (Ok a, s') => final (f a) s'
    | (Raise _, s') => s'
    end.
Proof. unfold final, bind. destruct (m s) as [[a | e] s']; reflexivity. Qed.

(** A mapping payload is not decoded. *)
Lemma decode_if_str_dict json_loads d :
  decode_if_str json_loads (VDict d) = (Ok tt, VDict d).
Proof. reflexivity. Qed.

(** ** C10: the input keys survive *)

(** C10. On a mapping payload each of the three normalizers returns a
    mapping that has every key of the input and agrees with the input on
    every key outside [written_keys]: no key is deleted, and a key that the
    rules do not assign keeps its value. *)
Theorem C10_normalizers_preserve_input_keys json_loads (d : gmap string pyval) :
  (exists d', normalize_heart_rate json_loads (VDict d) = VDict d' /\ extends written_keys d d') /\
  (exists d', normalize_activity json_loads (VDict d) = VDict d' /\ extends written_keys d d') /\
  (exists d', normalize_sleep json_loads (VDict d) = VDict d' /\ extends written_keys d d').
Proof.
  unfold normalize_heart_rate, normalize_activity, normalize_sleep. simpl.
  repeat split; apply final_frames.
  - frames_rule (frames_heart_rate_body json_loads).
  - frames_rule (frames_activity_body json_loads).
  - frames_rule (frames_sleep_body json_loads).
Qed.

(** ** C9: the fallback returns the mutated mapping *)

(** C9. With [{"distance": 2, "distance_unit": "km", "steps": "abc"}] the
    body of [normalize_activity] raises at the steps rule ([float('abc')]),
    after the distance rule has written [distance_meters] and rewritten
    [distance_unit]; the mapping returned carries both changes and so is
    not the original payload. [normalize_heart_rate] behaves the same way
    on [{"unit": "BPM", "data_points": 5}]: the unit is rewritten before
    [len(5)] raises. *)
Theorem C9_error_fallback_keeps_mutations json_loads :
  let payload :=
    mk_dict [("distance", VInt 2); ("distance_unit", VStr "km"); ("steps", VStr "abc")] in
  let returned := normalize_activity json_loads payload in
  let hr_payload := mk_dict [("unit", VStr "BPM"); ("data_points", VInt 5)] in
  fst (activity_body json_loads payload) = Raise ValueError /\
  returned = mk_dict [("distance", VInt 2); ("distance_unit", VStr "meters");
                      ("distance_meters", VInt 2000); ("steps", VStr "abc")] /\
  field returned "distance_meters" = Some (VInt 2000) /\
  field payload "distance_meters" = None /\
  field returned "distance_unit" = Some (VStr "meters") /\
  field payload "distance_unit" = Some (VStr "km") /\
  returned <> payload /\
  fst (heart_rate_body json_loads hr_payload) = Raise TypeError /\
  normalize_heart_rate json_loads hr_payload =
    mk_dict [("unit", VStr "bpm"); ("data_points", VInt 5)].
Proof.
  cbv zeta. repeat split; try (vm_compute; reflexivity).
  intros H. apply (f_equal (fun v => field v "distance_unit")) in H.
  vm_compute in H. discriminate H.
Qed.

(** ** C1: the scenario payload is left as it is *)

(** C1. The payload [{"avg_normalized": 0.5, "unit": "normalized"}] of the
    scenario has no key [normalized], which the first rule tests for, so
    the rule does not fire: the payload is returned unchanged, [avg_bpm] is
    not set and the unit stays [normalized]. *)
Theorem C1_scenario_payload_not_converted json_loads :
  let payload := mk_dict [("avg_normalized", VFloat 0.5); ("unit", VStr "normalized")] in
  normalize_heart_rate json_loads payload = payload /\
  field (normalize_heart_rate json_loads payload) "avg_bpm" = None /\
  field (normalize_heart_rate json_loads payload) "unit" = Some (VStr "normalized").
Proof. cbv zeta. repeat split; vm_compute; reflexivity. Qed.

(** With a key [normalized] in the payload the rule fires, and computes
    what the scenario expects. *)
Example heart_rate_scenario_with_normalized_key json_loads :
  normalize_heart_rate json_loads
    (mk_dict [("normalized", VBool true); ("avg_normalized", VFloat 0.5);
              ("unit", VStr "normalized")]) =
  mk_dict [("normalized", VBool true); ("avg_normalized", VFloat 0.5);
           ("avg_bpm", VFloat 130); ("unit", VStr "bpm")].
Proof. vm_compute. reflexivity. Qed.

(** * What each rule does on a mapping *)

Lemma bool_decide_pair (x a b : string) :
  bool_decide (x ∈ [a; b]) = bool_decide (x = a) || bool_decide (x = b).
Proof.
  destruct (decide (x = a)) as [-> | Ha].
  - rewrite (bool_decide_eq_true_2 (a = a)) by reflexivity.
    apply bool_decide_eq_true_2. set_solver.
  - rewrite (bool_decide_eq_false_2 (x = a)) by exact Ha. simpl.
    apply bool_decide_ext. set_solver.
Qed.

(** Unfolds the primitives of the monad so that a rule can be run on a
    mapping by simplification. *)
Ltac run_rule :=
  unfold and_then, not_contains, contains, getitem, get, when, bind, read, lift, ret,
    setitem, py_contains, py_getitem, py_get; simpl.

(** Case analysis on everything a rule inspects. *)
Ltac rule_cases :=
  repeat (simpl;
          match goal with
          | H : ?x = _ |- context [?x] => rewrite H
          | |- context [match ?d !! ?k with _ => _ end] => destruct (d !! k) eqn:?
          | |- context [if ?c then _ else _] => destruct c eqn:?
          | |- context [match py_lower ?v with _ => _ end] => destruct v
          | |- context [py_mul ?a ?b] => destruct (py_mul a b) eqn:?
          end).

(** ** The distance rule *)

Lemma activity_distance_absent d :
  d !! "distance" = None -> activity_distance (VDict d) = (Ok tt, VDict d).
Proof. intros H. unfold activity_distance. run_rule. rewrite H. reflexivity. Qed.

Lemma activity_distance_run d distance unit r :
  d !! "distance" = Some distance ->
  declared d "distance_unit" unit ->
  spec_distance_meters distance unit = Ok r ->
  activity_distance (VDict d) =
    (Ok tt, VDict (<["distance_unit" := VStr "meters"]> (<["distance_meters" := r]> d))).
Proof.
  unfold declared, spec_distance_meters, distance_factor.
  intros Hd Hu Hr. unfold activity_distance. run_rule.
  repeat (rewrite ?Hd, ?Hu; simpl).
  destruct unit as [u |]; simpl.
  - rewrite !bool_decide_pair in Hr.
    destruct (bool_decide (lower u = "km") || bool_decide (lower u = "kilometers")).
    { rewrite Hr. reflexivity. }
    destruct (bool_decide (lower u = "mi") || bool_decide (lower u = "miles")).
    { rewrite Hr. reflexivity. }
    destruct (bool_decide (lower u = "ft") || bool_decide (lower u = "feet")).
    { rewrite Hr. reflexivity. }
    injection Hr as <-. reflexivity.
  - injection Hr as <-. reflexivity.
Qed.


(** ** The duration rule *)

Lemma sleep_duration_skipped d :
  d !! "sleep_duration" = None \/ is_Some (d !! "sleep_duration_ms") ->
  sleep_duration (VDict d) = (Ok tt, VDict d).
Proof.
  intros H. unfold sleep_duration. run_rule.
  destruct H as [H | [v H]]; rule_cases; reflexivity.
Qed.

Lemma sleep_duration_run d duration unit r :
  d !! "sleep_duration" = Some duration ->
  d !! "sleep_duration_ms" = None ->
  declared d "duration_unit" unit ->
  spec_sleep_duration_ms duration unit = Ok r ->
  sleep_duration (VDict d) =
    (Ok tt, VDict (<["duration_unit" := VStr "ms"]> (<["sleep_duration_ms" := r]> d))).
Proof.
  unfold declared, spec_sleep_duration_ms, duration_factors.
  intros Hd Hms Hu Hr. unfold sleep_duration. run_rule.
  repeat (rewrite ?Hd, ?Hms, ?Hu; simpl).
  destruct unit as [u |]; simpl.
  - rewrite !bool_decide_pair in Hr.
    destruct (bool_decide (lower u = "seconds") || bool_decide (lower u = "s")).
    { simpl in Hr. rewrite Hr. reflexivity. }
    destruct (bool_decide (lower u = "minutes") || bool_decide (lower u = "min")).
    { simpl in Hr. rewrite Hr. reflexivity. }
    destruct (bool_decide (lower u = "hours") || bool_decide (lower u = "h")).
    { simpl in Hr.
      destruct (py_mul duration (VInt 60)) as [p1 |]; simpl in *; [| discriminate].
      destruct (py_mul p1 (VInt 60)) as [p2 |]; simpl in *; [| discriminate].
      rewrite Hr. reflexivity. }
    injection Hr as <-. reflexivity.
  - simpl in Hr. rewrite Hr. reflexivity.
Qed.

Lemma sleep_duration_cases d :
  (exists r, sleep_duration (VDict d) = (r, VDict d)) \/
  (exists v, sleep_duration (VDict d) =
     (Ok tt, VDict (<["duration_unit" := VStr "ms"]> (<["sleep_duration_ms" := v]> d)))).
Proof.
  unfold sleep_duration. run_rule. rule_cases; eauto.
Qed.

(** * Distance and duration *)

(** The rest of [normalize_activity] after the distance rule: the calories
    and steps rules touch two keys only, and a raise keeps the mapping. *)
Lemma normalize_activity_after_distance json_loads d r d1 :
  activity_distance (VDict d) = (r, VDict d1) ->
  exists d', normalize_activity json_loads (VDict d) = VDict d' /\
             extends ["total_calories"; "steps"] d1 d'.
Proof.
  intros Hrun. unfold normalize_activity, activity_body. simpl.
  rewrite final_bind, decode_if_str_dict, final_bind, Hrun.
  destruct r as [[] | e].
  - apply final_frames. apply frames_bind; [| intros _].
    + frames_rule frames_activity_calories.
    + frames_rule frames_activity_steps.
  - exists d1. split; [reflexivity | apply extends_refl].
Qed.

(** The rest of [normalize_sleep] after the duration rule. *)
Lemma normalize_sleep_after_duration json_loads d r d1 :
  sleep_duration (VDict d) = (r, VDict d1) ->
  exists d', normalize_sleep json_loads (VDict d) = VDict d' /\
             extends ["normalized_stages"] d1 d'.
Proof.
  intros Hrun. unfold normalize_sleep, sleep_body. simpl.
  rewrite final_bind, decode_if_str_dict, final_bind, Hrun.
  destruct r as [[] | e].
  - apply final_frames, frames_sleep_stages.
  - exists d1. split; [reflexivity | apply extends_refl].
Qed.

Ltac other_key := intros Hin; set_unfold in Hin; intuition discriminate.

(** ** C6: distance in meters *)




(** What the specification's product is on numbers. *)
Lemma spec_distance_meters_numbers (n : Z) (f : float) :
  spec_distance_meters (VInt n) (Some "km") = Ok (VInt (n * 1000)) /\
  spec_distance_meters (VFloat f) (Some "km") = Ok (VFloat (f * 1000)) /\
  spec_distance_meters (VFloat f) (Some "mi") = Ok (VFloat (f * 1609.34)) /\
  spec_distance_meters (VFloat f) (Some "ft") = Ok (VFloat (f * 0.3048)) /\
  spec_distance_meters (VInt n) (Some "meters") = Ok (VInt n) /\
  spec_distance_meters (VInt n) None = Ok (VInt n).
Proof. repeat split. Qed.

(** ** C5: sleep duration in milliseconds *)

(** C5 (amended). For every sleep mapping with [sleep_duration] present and
    [sleep_duration_ms] absent, whose [duration_unit] is absent or a string,
    and for which the products are defined: [sleep_duration_ms] is the
    duration times 1000 when the unit (case-insensitively) is seconds/s or
    when the [duration_unit] key is absent, the duration times 60 and then
    times 1000 for minutes/min, times 60, 60 and then 1000 for hours/h, and
    the duration itself for any other unit; and [duration_unit] is ['ms']. *)
Theorem C5_sleep_duration_in_ms json_loads (d : gmap string pyval) duration unit r :
  d !! "sleep_duration" = Some duration ->
  d !! "sleep_duration_ms" = None ->
  declared d "duration_unit" unit ->
  spec_sleep_duration_ms duration unit = Ok r ->
  field (normalize_sleep json_loads (VDict d)) "sleep_duration_ms" = Some r /\
  field (normalize_sleep json_loads (VDict d)) "duration_unit" = Some (VStr "ms").
Proof.
  intros Hd Hms Hu Hr.
  destruct (normalize_sleep_after_duration json_loads d _ _
              (sleep_duration_run d duration unit r Hd Hms Hu Hr)) as (d' & -> & [Hsame _]).
  simpl. split.
  - rewrite Hsame by other_key.
    rewrite lookup_insert_ne by discriminate. apply lookup_insert_eq.
  - rewrite Hsame by other_key. apply lookup_insert_eq.
Qed.

(** The scenario: 8 hours are 28800000 ms. *)
Lemma C5_eight_hours_scenario :
  let d : gmap string pyval :=
    list_to_map [("sleep_duration", VInt 8); ("duration_unit", VStr "hours")] in
  d !! "sleep_duration" = Some (VInt 8) /\
  d !! "sleep_duration_ms" = None /\
  declared d "duration_unit" (Some "hours") /\
  spec_sleep_duration_ms (VInt 8) (Some "hours") = Ok (VInt 28800000) /\
  (forall json_loads,
     field (normalize_sleep json_loads (VDict d)) "sleep_duration_ms" = Some (VInt 28800000) /\
     field (normalize_sleep json_loads (VDict d)) "duration_unit" = Some (VStr "ms")).
Proof.
  cbv zeta. split; [reflexivity |]. split; [reflexivity |]. split; [reflexivity |].
  split; [vm_compute; reflexivity |].
  intros json_loads.
  apply (C5_sleep_duration_in_ms json_loads _ (VInt 8) (Some "hours") (VInt 28800000));
    vm_compute; reflexivity.
Defined.

(** C5, as stated, fails: with no [duration_unit] key the duration is not
    copied unchanged but read as seconds, so 8 becomes 8000. *)
Lemma C5_absent_unit_is_seconds :
  let payload := mk_dict [("sleep_duration", VInt 8)] in
  (forall json_loads,
     field (normalize_sleep json_loads payload) "sleep_duration_ms" = Some (VInt 8000)) /\
  VInt 8000 <> VInt 8.
Proof.
  cbv zeta. split; [intros json_loads; vm_compute; reflexivity | discriminate].
Qed.

(** On an int the factors multiply out to 1000, 60000 and 3600000. *)
Lemma spec_sleep_duration_ms_int (n : Z) :
  spec_sleep_duration_ms (VInt n) (Some "seconds") = Ok (VInt (n * 1000)) /\
  spec_sleep_duration_ms (VInt n) (Some "minutes") = Ok (VInt (n * 60000)) /\
  spec_sleep_duration_ms (VInt n) (Some "hours") = Ok (VInt (n * 3600000)) /\
  spec_sleep_duration_ms (VInt n) None = Ok (VInt (n * 1000)) /\
  spec_sleep_duration_ms (VInt n) (Some "ms") = Ok (VInt n).
Proof.
  unfold spec_sleep_duration_ms.
  change (duration_factors (Some "seconds")) with [1000].
  change (duration_factors (Some "minutes")) with [60; 1000].
  change (duration_factors (Some "hours")) with [60; 60; 1000].
  change (duration_factors (Some "ms")) with (@nil Z).
  repeat split; repeat (unfold py_mul; simpl); try reflexivity; do 2 f_equal; lia.
Qed.

(** On a float the products are rounded one by one, which is not always the
    single product with 3600000. *)
Example sleep_hours_float_rounding :
  spec_sleep_duration_ms (VFloat 1.15) (Some "hours") = Ok (VFloat 4140000) /\
  (1.15 * 3600000)%float = 4139999.9999999995%float.
Proof. split; vm_compute; reflexivity. Qed.

(** ** The products are defined on numbers *)

(** A float distance has its product with every factor; so has an int
    distance that fits a float. *)
Lemma spec_distance_meters_defined distance unit :
  (exists f, distance = VFloat f) \/ (exists n g, distance = VInt n /\ float_of_Z n = Ok g) ->
  exists r, spec_distance_meters distance unit = Ok r.
Proof.
  intros Hnum. unfold spec_distance_meters, distance_factor.
  destruct unit as [u |]; [| eauto].
  destruct Hnum as [[f ->] | (n & g & -> & Hg)];
    repeat case_bool_decide; unfold py_mul; simpl; rewrite ?Hg; simpl; eauto.
Qed.

(** An int or float duration has its products with 60 and 1000. *)
Lemma spec_sleep_duration_ms_defined duration unit :
  is_Some (as_num duration) ->
  exists r, spec_sleep_duration_ms duration unit = Ok r.
Proof.
  assert (Hstep : forall v k, is_Some (as_num v) -> k = 60 \/ k = 1000 ->
            exists r, py_mul v (VInt k) = Ok r /\ is_Some (as_num r)).
  { intros v k [x Hx] Hk. unfold py_mul. rewrite Hx. simpl.
    destruct x as [z | f]; simpl; [eexists; split; [reflexivity | simpl; eauto] |].
    destruct Hk as [-> | ->]; (eexists; split; [reflexivity | simpl; eauto]). }
  assert (Hfold : forall factors, Forall (fun k => k = 60 \/ k = 1000) factors ->
            forall v, is_Some (as_num v) ->
            exists r, fold_left (fun acc k => a <~ acc ;; py_mul a (VInt k)) factors (Ok v) = Ok r).
  { induction 1 as [| k factors Hk _ IH]; intros v Hv; simpl; [eauto |].
    destruct (Hstep v k Hv Hk) as (r & -> & Hr). apply IH, Hr. }
  intros Hnum. unfold spec_sleep_duration_ms. apply Hfold; [| exact Hnum].
  unfold duration_factors. destruct unit as [u |]; repeat case_bool_decide;
    repeat (apply Forall_cons; split; [auto |]); apply Forall_nil_2.
Qed.

(** * Units *)

(** ** The heart-rate rules *)

(** The first rule needs the unit to be the string [normalized]. *)
Lemma heart_rate_from_normalized_skipped d :
  d !! "unit" <> Some (VStr "normalized") ->
  heart_rate_from_normalized (VDict d) = (Ok tt, VDict d).
Proof.
  intros Hu. unfold heart_rate_from_normalized. run_rule.
  destruct (d !! "normalized"); simpl; [| reflexivity].
  destruct (d !! "unit") as [u |] eqn:Eu; simpl; [| reflexivity].
  destruct u; simpl; try reflexivity.
  case_bool_decide; [| reflexivity]. subst. contradiction.
Qed.

(** With the key [normalized], the unit [normalized] and a float strictly
    between 0 and 1 under [avg_normalized], the first rule interpolates. *)
Lemma heart_rate_from_normalized_run d f :
  is_Some (d !! "normalized") ->
  d !! "unit" = Some (VStr "normalized") ->
  d !! "avg_normalized" = Some (VFloat f) ->
  py_gt_int (VFloat f) 0 = Ok true ->
  py_lt_int (VFloat f) 1 = Ok true ->
  heart_rate_from_normalized (VDict d) =
    (Ok tt, VDict (<["unit" := VStr "bpm"]> (<["avg_bpm" := VFloat (40 + f * 180)]> d))).
Proof.
  intros [n Hn] Hu Ha Hgt Hlt. unfold heart_rate_from_normalized. run_rule.
  repeat (rewrite ?Hn, ?Hu, ?Ha, ?Hgt, ?Hlt; simpl). reflexivity.
Qed.

(** The second rule rewrites a bpm spelling, and supplies a missing unit. *)
Lemma heart_rate_unit_run d unit :
  declared d "unit" unit -> bpm_spelling unit ->
  heart_rate_unit (VDict d) = (Ok tt, VDict (<["unit" := VStr "bpm"]> d)).
Proof.
  unfold declared, bpm_spelling. intros Hu Hs. unfold heart_rate_unit. run_rule.
  destruct unit as [u |]; repeat (rewrite ?Hu; simpl); [| reflexivity].
  rewrite bool_decide_eq_true_2 by exact Hs. reflexivity.
Qed.

(** The last two rules do nothing once [avg_bpm] is there. *)
Lemma heart_rate_from_avg_hr_skipped d :
  is_Some (d !! "avg_bpm") -> heart_rate_from_avg_hr (VDict d) = (Ok tt, VDict d).
Proof.
  intros [v Hv]. unfold heart_rate_from_avg_hr. run_rule.
  destruct (d !! "avg_hr"); repeat (rewrite ?Hv; simpl); reflexivity.
Qed.

Lemma heart_rate_from_data_points_skipped d :
  is_Some (d !! "avg_bpm") -> heart_rate_from_data_points (VDict d) = (Ok tt, VDict d).
Proof.
  intros [v Hv]. unfold heart_rate_from_data_points. run_rule.
  repeat (rewrite ?Hv; simpl). reflexivity.
Qed.


(** The guarded form of the first rule, on the whole function: with a key
    [normalized] in the payload, [avg_bpm = 40 + avg_normalized * 180] and
    the unit becomes ['bpm']. *)
Lemma normalize_heart_rate_interpolates json_loads (d : gmap string pyval) f :
  is_Some (d !! "normalized") ->
  d !! "unit" = Some (VStr "normalized") ->
  d !! "avg_normalized" = Some (VFloat f) ->
  py_gt_int (VFloat f) 0 = Ok true ->
  py_lt_int (VFloat f) 1 = Ok true ->
  field (normalize_heart_rate json_loads (VDict d)) "avg_bpm" = Some (VFloat (40 + f * 180)) /\
  field (normalize_heart_rate json_loads (VDict d)) "unit" = Some (VStr "bpm").
Proof.
  intros Hn Hu Ha Hgt Hlt.
  pose proof (heart_rate_from_normalized_run d f Hn Hu Ha Hgt Hlt) as H1.
  set (d1 := <["unit" := VStr "bpm"]> (<["avg_bpm" := VFloat (40 + f * 180)]> d)) in *.
  assert (H2 : heart_rate_unit (VDict d1) = (Ok tt, VDict (<["unit" := VStr "bpm"]> d1))).
  { apply (heart_rate_unit_run d1 (Some "bpm")).
    - apply lookup_insert_eq.
    - vm_compute. set_solver. }
  unfold normalize_heart_rate, heart_rate_body. simpl.
  rewrite final_bind, decode_if_str_dict, final_bind, H1, final_bind, H2.
  assert (Hbpm : is_Some (<["unit" := VStr "bpm"]> d1 !! "avg_bpm")).
  { exists (VFloat (40 + f * 180)). subst d1.
    rewrite !lookup_insert_ne by discriminate. apply lookup_insert_eq. }
  rewrite final_bind, (heart_rate_from_avg_hr_skipped _ Hbpm).
  unfold final. rewrite (heart_rate_from_data_points_skipped _ Hbpm). simpl.
  destruct Hbpm as [v Hv]. subst d1. split.
  - rewrite !lookup_insert_ne by discriminate. apply lookup_insert_eq.
  - apply lookup_insert_eq.
Qed.

(** ** C4: the unit of a value the normalizer computed *)




(** * Sleep stages *)

Lemma last_present_cons st a rest :
  last_present st (a :: rest) =
    match last_present st rest with
    | Some v => Some v
    | None => st !! a
    end.
Proof.
  unfold last_present. simpl.
  destruct (st !! a) as [v |]; simpl.
  - rewrite last_cons. reflexivity.
  - destruct (last _); reflexivity.
Qed.

(** On a mapping of stages, the inner loop leaves under the standard stage
    the value of the last variation present: each hit overwrites the one
    before. *)
Lemma scan_variations_dict st standard_stage variations ns :
  scan_variations (VDict st) standard_stage variations ns =
    Ok (match last_present st variations with
        | Some v => <[standard_stage := v]> ns
        | None => ns
        end).
Proof.
  revert ns. induction variations as [| a rest IH]; intros ns; simpl.
  - reflexivity.
  - rewrite last_present_cons. destruct (st !! a) as [v |]; simpl; rewrite IH.
    + destruct (last_present st rest); [rewrite insert_insert_eq |]; reflexivity.
    + destruct (last_present st rest); reflexivity.
Qed.

(** The outcome of both loops on a mapping of stages. *)
Lemma scan_stages_dict st :
  exists ns,
    scan_stages (VDict st) stage_mapping ∅ = Ok ns /\
    (forall standard_stage variations,
       (standard_stage, variations) ∈ stage_mapping ->
       ns !! standard_stage = last_present st variations) /\
    (forall k, is_Some (ns !! k) -> k ∈ canonical_stages).
Proof.
  eexists. split.
  { unfold stage_mapping. cbn [scan_stages].
    repeat (rewrite scan_variations_dict; cbn [exn_bind]). reflexivity. }
  split.
  - intros standard_stage variations Hin.
    unfold stage_mapping in Hin. set_unfold in Hin.
    destruct Hin as [[= -> ->] | [[= -> ->] | [[= -> ->] | [[= -> ->] | []]]]];
      repeat match goal with
             | |- context [match last_present st ?l with _ => _ end] =>
                 destruct (last_present st l)
             end;
      repeat first [rewrite lookup_insert_eq | rewrite lookup_insert_ne by discriminate
                   | rewrite lookup_empty]; reflexivity.
  - intros k [v Hk]. unfold canonical_stages.
    destruct (decide (k ∈ ["light"; "deep"; "rem"; "awake"])) as [Hin | Hout]; [exact Hin |].
    exfalso.
    repeat match goal with
           | H : context [match last_present st ?l with _ => _ end] |- _ =>
               destruct (last_present st l)
           end;
      repeat (rewrite lookup_insert_ne in Hk by (intros <-; apply Hout; set_solver));
      rewrite lookup_empty in Hk; discriminate.
Qed.

#[local] Arguments scan_stages : simpl never.

(** The stages rule on a mapping whose [stages] is a mapping. *)
Lemma sleep_stages_run d st :
  d !! "stages" = Some (VDict st) ->
  exists ns,
    sleep_stages (VDict d) = (Ok tt, VDict (<["normalized_stages" := VDict ns]> d)) /\
    (forall standard_stage variations,
       (standard_stage, variations) ∈ stage_mapping ->
       ns !! standard_stage = last_present st variations) /\
    (forall k, is_Some (ns !! k) -> k ∈ canonical_stages).
Proof.
  intros Hst. destruct (scan_stages_dict st) as (ns & Hscan & Hlast & Hkeys).
  exists ns. split; [| split; assumption].
  unfold sleep_stages. run_rule. repeat (rewrite ?Hst; simpl).
  rewrite Hscan. reflexivity.
Qed.

(** ** C2: which alias wins *)

(** C2 (amended). For every sleep mapping whose [stages] is a mapping and
    on which the duration rule does not raise, the output carries
    [normalized_stages], a mapping that gives each canonical stage with an
    alias in [stages] the value of the LAST alias present in the declared
    alias order (light: light, light_sleep; deep: deep, deep_sleep,
    slow_wave; rem: rem, rem_sleep, rapid_eye_movement; awake: awake, wake,
    wakefulness), gives no value to a stage with no alias present, and has
    no key outside light, deep, rem, awake. *)
Theorem C2_last_alias_present_wins json_loads (d st : gmap string pyval) :
  d !! "stages" = Some (VDict st) ->
  fst (sleep_duration (VDict d)) = Ok tt ->
  exists ns,
    field (normalize_sleep json_loads (VDict d)) "normalized_stages" = Some (VDict ns) /\
    (forall standard_stage variations,
       (standard_stage, variations) ∈ stage_mapping ->
       ns !! standard_stage = last_present st variations) /\
    (forall k, is_Some (ns !! k) -> k ∈ canonical_stages).
Proof.
  intros Hst Hdur.
  destruct (frames_sleep_duration d) as (r & d1 & Hrun & [Hsame _]).
  rewrite Hrun in Hdur. simpl in Hdur. subst r.
  assert (Hst1 : d1 !! "stages" = Some (VDict st)).
  { rewrite Hsame by other_key. exact Hst. }
  destruct (sleep_stages_run d1 st Hst1) as (ns & Hstages & Hlast & Hkeys).
  exists ns. split; [| split; assumption].
  unfold normalize_sleep, sleep_body. simpl.
  rewrite final_bind, decode_if_str_dict, final_bind, Hrun.
  unfold final. rewrite Hstages. simpl. apply lookup_insert_eq.
Qed.

(** With both [deep] and [slow_wave] present, the value under [deep] is
    the one of [slow_wave]. *)
Lemma C2_deep_and_slow_wave_scenario :
  let st : gmap string pyval := list_to_map [("deep", VInt 1); ("slow_wave", VInt 2)] in
  let d : gmap string pyval := list_to_map [("stages", VDict st)] in
  d !! "stages" = Some (VDict st) /\
  fst (sleep_duration (VDict d)) = Ok tt /\
  last_present st ["deep"; "deep_sleep"; "slow_wave"] = Some (VInt 2) /\
  (forall json_loads, exists ns,
     field (normalize_sleep json_loads (VDict d)) "normalized_stages" = Some (VDict ns) /\
     ns !! "deep" = Some (VInt 2)).
Proof.
  cbv zeta. split; [reflexivity |]. split; [reflexivity |]. split; [reflexivity |].
  intros json_loads.
  destruct (C2_last_alias_present_wins json_loads
              (list_to_map [("stages",
                 VDict (list_to_map [("deep", VInt 1); ("slow_wave", VInt 2)]))])
              (list_to_map [("deep", VInt 1); ("slow_wave", VInt 2)]))
    as (ns & Hout & Hlast & _); [reflexivity | reflexivity |].
  exists ns. split; [exact Hout |].
  rewrite (Hlast "deep" ["deep"; "deep_sleep"; "slow_wave"]) by (unfold stage_mapping; set_solver).
  reflexivity.
Defined.

(** C2, as stated, fails: with [deep] and [slow_wave] both present the
    first alias in the declared order is [deep], with value 1, but
    [normalized_stages] gives [deep] the value 2 of [slow_wave]. *)
Lemma C2_first_alias_does_not_win :
  let st : gmap string pyval := list_to_map [("deep", VInt 1); ("slow_wave", VInt 2)] in
  first_present st ["deep"; "deep_sleep"; "slow_wave"] = Some (VInt 1) /\
  (forall json_loads,
     normalize_sleep json_loads (mk_dict [("stages", VDict st)]) =
       mk_dict [("stages", VDict st); ("normalized_stages", mk_dict [("deep", VInt 2)])]) /\
  VInt 2 <> VInt 1.
Proof.
  cbv zeta. repeat split; try discriminate; vm_compute; reflexivity.
Qed.

(** A payload that already carries [normalized_stages] keeps it when the
    duration rule raises, whatever its keys. *)
Example normalized_stages_kept_on_raise json_loads :
  let payload :=
    mk_dict [("sleep_duration", VNone); ("stages", mk_dict [("deep", VInt 1)]);
             ("normalized_stages", mk_dict [("nap", VInt 3)])] in
  normalize_sleep json_loads payload = payload.
Proof. vm_compute. reflexivity. Qed.

(** * Timestamps *)

Section ConvertToUtc.

Context {L : DateLib}.

(** The conversion returns: a UTC datetime, or null. *)
Lemma convert_to_utc_returns ts :
  convert_to_utc ts = Ok None \/ exists u, convert_to_utc ts = Ok (Some u).
Proof.
  destruct ts as [s |]; simpl; [| left; reflexivity].
  destruct (parse s) as [dt | e]; simpl; [| left; reflexivity].
  destruct (if tzinfo_is_none dt then localize dt else Ok dt) as [dt' | e]; simpl;
    [| left; reflexivity].
  destruct (astimezone_utc dt') as [u | e]; simpl; [right; eauto | left; reflexivity].
Qed.

(** An aware datetime is converted as it is, without a default zone. *)
Lemma convert_to_utc_aware s dt :
  parse s = Ok dt -> tzinfo_is_none dt = false ->
  convert_to_utc (Some s) = try_except (u <~ astimezone_utc dt ;; Ok (Some u)) (fun _ => Ok None).
Proof. intros Hp Ha. simpl. rewrite Hp. simpl. rewrite Ha. reflexivity. Qed.

(** ** C7: no exception leaves the conversion *)


(** ** C8: converting the rendering of a converted timestamp *)

Context {LL : DateLibLaws L}.

(** Whatever was converted to the UTC datetime [u], the rendering of [u]
    converts to a datetime for the same instant. *)
Lemma convert_to_utc_of_rendering x u :
  astimezone_utc x = Ok u ->
  exists u', convert_to_utc (Some (str_of u)) = Ok (Some u') /\ instant u' = instant u.
Proof.
  intros Hx.
  destruct (parse_str_of_utc x u Hx) as (r & Hparse & Haware & Hinst).
  destruct (astimezone_utc_defined x u r Hx Haware Hinst) as (u' & Hu').
  exists u'. split.
  - rewrite (convert_to_utc_aware _ r Hparse Haware), Hu'. reflexivity.
  - rewrite (astimezone_utc_instant r u' Haware Hu'). exact Hinst.
Qed.


(** The same holds for a string without a zone, after the default zone
    was applied. *)
Lemma convert_to_utc_idempotent_any s u :
  convert_to_utc (Some s) = Ok (Some u) ->
  exists u', convert_to_utc (Some (str_of u)) = Ok (Some u') /\ instant u' = instant u.
Proof.
  simpl. destruct (parse s) as [dt | e]; simpl; [| discriminate].
  destruct (if tzinfo_is_none dt then localize dt else Ok dt) as [dt' | e]; simpl;
    [| discriminate].
  destruct (astimezone_utc dt') as [u0 | e] eqn:Hu; simpl; [| discriminate].
  intros [= <-]. apply (convert_to_utc_of_rendering dt' u0 Hu).
Qed.

End ConvertToUtc.

(** ** The small date library satisfies the laws *)

Lemma epoch_parse_decimal z off :
  EpochLib.of_decimal (EpochLib.to_decimal z) off = Ok {| EpochLib.wall := z; EpochLib.utcoffset := off |}.
Proof.
  unfold EpochLib.of_decimal, EpochLib.to_decimal.
  rewrite DecimalString.NilZero.isi.
  - rewrite DecimalZ.of_to. reflexivity.
  - destruct z; simpl; try discriminate.
    intros [= H]. exact (DecimalPos.Unsigned.to_uint_nonnil _ H).
  - destruct z; simpl; try discriminate.
    intros [= H]. exact (DecimalPos.Unsigned.to_uint_nonnil _ H).
Qed.

Lemma epoch_laws : DateLibLaws EpochLib.lib.
Proof.
  split; simpl.
  - intros x u _. unfold EpochLib.to_utc, EpochLib.micros.
    destruct (EpochLib.utcoffset x); intros [= <-]. simpl. lia.
  - intros x u. unfold EpochLib.to_utc.
    destruct (EpochLib.utcoffset x) as [off |]; intros [= <-].
    unfold EpochLib.render, EpochLib.parse_epoch. simpl.
    rewrite epoch_parse_decimal. eexists. split; [reflexivity |].
    split; [reflexivity |]. unfold EpochLib.micros. simpl. lia.
  - intros x u r _ Haware _. unfold EpochLib.to_utc.
    destruct (EpochLib.utcoffset r); [eauto | discriminate].
Qed.



(** * Rows *)

Section NormalizedRows.

Context {L : DateLib}.
Variable json_loads : string -> exn pyval.

(** [normalized_df] returns a row, whose payload columns are the three
    normalizers applied to the three source columns. *)
Lemma normalized_df_columns row :
  exists out,
    normalized_df json_loads row = Ok out /\
    source out = row /\
    normalized_heart_rate out = normalize_heart_rate json_loads (heart_rate row) /\
    normalized_activity out = normalize_activity json_loads (activity row) /\
    normalized_sleep out = normalize_sleep json_loads (sleep row).
Proof.
  unfold normalized_df.
  destruct (convert_to_utc_returns (start_date row)) as [-> | [? ->]];
    destruct (convert_to_utc_returns (end_date row)) as [-> | [? ->]];
    destruct (convert_to_utc_returns (date row)) as [-> | [? ->]];
    simpl; eexists; repeat split.
Qed.

(** A normalizer maps a mapping to a mapping. *)
Lemma normalizers_populate_mappings d :
  populated (normalize_heart_rate json_loads (VDict d)) = true /\
  populated (normalize_activity json_loads (VDict d)) = true /\
  populated (normalize_sleep json_loads (VDict d)) = true.
Proof.
  pose proof (final_frames _ _ d (frames_heart_rate_body json_loads)) as (d1 & H1 & _).
  pose proof (final_frames _ _ d (frames_activity_body json_loads)) as (d2 & H2 & _).
  pose proof (final_frames _ _ d (frames_sleep_body json_loads)) as (d3 & H3 & _).
  unfold normalize_heart_rate, normalize_activity, normalize_sleep. simpl.
  rewrite H1, H2, H3. repeat split.
Qed.

(** ** C3: no dispatch on the tag *)

(** C3 (amended). For every raw record the record-level normalizer returns
    a row that keeps the source record, tag included, and whose three
    canonical payloads are the three domain normalizers applied each to
    its own column (heart_rate, activity, sleep), whatever the tag: with
    another tag the canonical payloads are the same. A canonical payload is
    null when its source column is null and populated when its source
    column holds a mapping. *)
Theorem C3_payload_columns_normalized_whatever_the_tag (row : raw_row) :
  exists out,
    normalized_df json_loads row = Ok out /\
    source out = row /\
    normalized_heart_rate out = normalize_heart_rate json_loads (heart_rate row) /\
    normalized_activity out = normalize_activity json_loads (activity row) /\
    normalized_sleep out = normalize_sleep json_loads (sleep row) /\
    (forall tag, exists out',
       normalized_df json_loads (with_data_type tag row) = Ok out' /\
       normalized_heart_rate out' = normalized_heart_rate out /\
       normalized_activity out' = normalized_activity out /\
       normalized_sleep out' = normalized_sleep out /\
       populated_payloads out' = populated_payloads out) /\
    (heart_rate row = VNone -> populated (normalized_heart_rate out) = false) /\
    (activity row = VNone -> populated (normalized_activity out) = false) /\
    (sleep row = VNone -> populated (normalized_sleep out) = false) /\
    (forall d, heart_rate row = VDict d -> populated (normalized_heart_rate out) = true) /\
    (forall d, activity row = VDict d -> populated (normalized_activity out) = true) /\
    (forall d, sleep row = VDict d -> populated (normalized_sleep out) = true).
Proof.
  destruct (normalized_df_columns row) as (out & Hout & Hsrc & Hh & Ha & Hs).
  exists out. repeat split; try assumption.
  - intros tag.
    destruct (normalized_df_columns (with_data_type tag row)) as (out' & Hout' & _ & Hh' & Ha' & Hs').
    exists out'. simpl in Hh', Ha', Hs'.
    assert (E1 : normalized_heart_rate out' = normalized_heart_rate out) by congruence.
    assert (E2 : normalized_activity out' = normalized_activity out) by congruence.
    assert (E3 : normalized_sleep out' = normalized_sleep out) by congruence.
    repeat split; try assumption.
    unfold populated_payloads. rewrite E1, E2, E3. reflexivity.
  - intros E. rewrite Hh, E. reflexivity.
  - intros E. rewrite Ha, E. reflexivity.
  - intros E. rewrite Hs, E. reflexivity.
  - intros d E. rewrite Hh, E. apply normalizers_populate_mappings.
  - intros d E. rewrite Ha, E. apply normalizers_populate_mappings.
  - intros d E. rewrite Hs, E. apply normalizers_populate_mappings.
Qed.

End NormalizedRows.

(** C3 (amended) on the sleep record: both its heart-rate payload and its
    sleep payload are normalized. *)
Lemma C3_sleep_row_scenario :
  heart_rate sleep_row_with_heart_rate =
    VDict (list_to_map [("avg_hr", VInt 58)]) /\
  activity sleep_row_with_heart_rate = VNone /\
  (forall (L : DateLib) json_loads, exists out,
     normalized_df json_loads sleep_row_with_heart_rate = Ok out /\
     populated (normalized_heart_rate out) = true /\
     populated (normalized_activity out) = false).
Proof.
  split; [reflexivity |]. split; [reflexivity |].
  intros L json_loads.
  destruct (@C3_payload_columns_normalized_whatever_the_tag L json_loads
              sleep_row_with_heart_rate)
    as (out & Hout & _ & _ & _ & _ & _ & _ & Hact & _ & Hhr & _).
  exists out. split; [exact Hout |]. split.
  - apply (Hhr (list_to_map [("avg_hr", VInt 58)])). reflexivity.
  - apply Hact. reflexivity.
Defined.

(** C3, as stated, fails: the record tagged [sleep] comes out with two
    populated canonical payloads, heart rate and sleep, and the record
    with the unrecognized tag [workout] comes out with its activity
    payload normalized ([unit]-free, but populated) rather than with no
    canonical field. *)
Lemma C3_not_dispatched_by_tag :
  data_type sleep_row_with_heart_rate = "sleep" /\
  data_type workout_row = "workout" /\
  (forall (L : DateLib) json_loads, exists out out',
     normalized_df json_loads sleep_row_with_heart_rate = Ok out /\
     populated_payloads out = ["heart_rate"; "sleep"] /\
     ~ dispatched_by_tag out /\
     normalized_df json_loads workout_row = Ok out' /\
     populated_payloads out' = ["activity"] /\
     ~ dispatched_by_tag out').
Proof.
  split; [reflexivity |]. split; [reflexivity |].
  intros L json_loads. eexists. eexists.
  split; [reflexivity |]. split; [vm_compute; reflexivity |].
  split; [unfold dispatched_by_tag; vm_compute; discriminate |].
  split; [reflexivity |]. split; [vm_compute; reflexivity |].
  unfold dispatched_by_tag; vm_compute; discriminate.
Qed.

(** * Other inputs: null, strings, and the remaining scenarios *)

Section StringPayloads.

Variable json_loads : string -> exn pyval.

(** A null payload gives null. *)
Lemma normalizers_on_null :
  normalize_heart_rate json_loads VNone = VNone /\
  normalize_activity json_loads VNone = VNone /\
  normalize_sleep json_loads VNone = VNone.
Proof. repeat split. Qed.

Lemma decode_if_str_raise text e :
  json_loads text = Raise e ->
  decode_if_str json_loads (VStr text) = (Raise e, VStr text).
Proof. intros He. cbv [decode_if_str bind read lift rebind]. rewrite He. reflexivity. Qed.

Lemma decode_if_str_ok text v :
  json_loads text = Ok v -> decode_if_str json_loads (VStr text) = (Ok tt, v).
Proof. intros Hv. cbv [decode_if_str bind read lift rebind]. rewrite Hv. reflexivity. Qed.

(** A string that does not decode is returned as it is. *)
Lemma normalizers_on_undecodable_string text e :
  json_loads text = Raise e ->
  normalize_heart_rate json_loads (VStr text) = VStr text /\
  normalize_activity json_loads (VStr text) = VStr text /\
  normalize_sleep json_loads (VStr text) = VStr text.
Proof.
  intros He.
  unfold normalize_heart_rate, normalize_activity, normalize_sleep,
    heart_rate_body, activity_body, sleep_body. simpl.
  rewrite !final_bind, !(decode_if_str_raise text e He). repeat split.
Qed.

(** A string that decodes to a mapping is normalized as the mapping is. *)
Lemma normalizers_on_decodable_string text d :
  json_loads text = Ok (VDict d) ->
  normalize_heart_rate json_loads (VStr text) = normalize_heart_rate json_loads (VDict d) /\
  normalize_activity json_loads (VStr text) = normalize_activity json_loads (VDict d) /\
  normalize_sleep json_loads (VStr text) = normalize_sleep json_loads (VDict d).
Proof.
  intros Hv.
  unfold normalize_heart_rate, normalize_activity, normalize_sleep,
    heart_rate_body, activity_body, sleep_body. simpl.
  rewrite !final_bind, !(decode_if_str_ok text (VDict d) Hv), !decode_if_str_dict.
  repeat split.
Qed.

(** The JSON text [null] decodes to [None], on which the first test of a
    body raises: the function returns [None]. *)
Lemma normalizers_on_json_null text :
  json_loads text = Ok VNone ->
  normalize_heart_rate json_loads (VStr text) = VNone /\
  normalize_activity json_loads (VStr text) = VNone /\
  normalize_sleep json_loads (VStr text) = VNone.
Proof.
  intros Hv.
  unfold normalize_heart_rate, normalize_activity, normalize_sleep,
    heart_rate_body, activity_body, sleep_body. simpl.
  rewrite !final_bind, !(decode_if_str_ok text VNone Hv). repeat split.
Qed.

(** Steps are parsed as a float and truncated. *)
Example steps_scenario :
  normalize_activity json_loads (mk_dict [("steps", VStr "120.7")]) =
  mk_dict [("steps", VInt 120)].
Proof. vm_compute. reflexivity. Qed.

(** One kilometer and a thousand meters give the same [distance_meters]. *)
Example kilometer_scenario :
  field (normalize_activity json_loads
           (mk_dict [("distance", VInt 1); ("distance_unit", VStr "km")])) "distance_meters" =
  field (normalize_activity json_loads
           (mk_dict [("distance", VInt 1000); ("distance_unit", VStr "meters")])) "distance_meters".
Proof. vm_compute. reflexivity. Qed.

(** Total calories estimated from active calories over two hours. *)
Example calories_scenario :
  field (normalize_activity json_loads
           (mk_dict [("active_calories", VInt 100); ("duration_ms", VInt 7200000)]))
        "total_calories" = Some (VFloat 250).
Proof. vm_compute. reflexivity. Qed.

(** The mean of the data points that carry a value. *)
Example data_points_scenario :
  normalize_heart_rate json_loads
    (mk_dict [("data_points",
               VList [mk_dict [("value", VInt 60)]; mk_dict [("value", VInt 75)]; mk_dict []])]) =
  mk_dict [("data_points",
            VList [mk_dict [("value", VInt 60)]; mk_dict [("value", VInt 75)]; mk_dict []]);
           ("unit", VStr "bpm"); ("avg_bpm", VFloat 67.5)].
Proof. vm_compute. reflexivity. Qed.

(** Stage names outside the aliases are dropped. *)
Example unrecognized_stages_scenario :
  field (normalize_sleep json_loads
           (mk_dict [("stages", mk_dict [("nap", VInt 20); ("doze", VInt 5)])]))
        "normalized_stages" = Some (mk_dict []).
Proof. vm_compute. reflexivity. Qed.

(** A record already in canonical units comes back unchanged. *)
Example canonical_round_trip :
  normalize_heart_rate json_loads (mk_dict [("avg_bpm", VInt 62); ("unit", VStr "bpm")]) =
    mk_dict [("avg_bpm", VInt 62); ("unit", VStr "bpm")] /\
  normalize_sleep json_loads
    (mk_dict [("sleep_duration_ms", VInt 28800000); ("duration_unit", VStr "ms")]) =
    mk_dict [("sleep_duration_ms", VInt 28800000); ("duration_unit", VStr "ms")].
Proof. split; vm_compute; reflexivity. Qed.

End StringPayloads.

(** * Payloads that are not mappings *)

Section Inert.

Lemma inert_ret {A} (a : A) : inert (ret a).
Proof. intros s _. reflexivity. Qed.

Lemma inert_lift {A} (x : exn A) : inert (lift x).
Proof. intros s _. reflexivity. Qed.

Lemma inert_read : inert read.
Proof. intros s _. reflexivity. Qed.

Lemma inert_bind {A B} (m : M A) (f : A -> M B) :
  inert m -> (forall a, inert (f a)) -> inert (bind m f).
Proof.
  intros Hm Hf s Hs. unfold bind. specialize (Hm s Hs).
  destruct (m s) as [[a | e] s']; simpl in *; subst s'; [apply Hf, Hs | reflexivity].
Qed.

(** Item assignment on an object that is not a dict raises. *)
Lemma inert_setitem k v : inert (setitem k v).
Proof. intros s Hs. destruct s; try reflexivity; discriminate. Qed.

Lemma inert_if {A} (c : bool) (a b : M A) : inert a -> inert b -> inert (if c then a else b).
Proof. destruct c; auto. Qed.

Lemma inert_contains k : inert (contains k).
Proof. apply inert_bind; [apply inert_read | intros; apply inert_lift]. Qed.

Lemma inert_not_contains k : inert (not_contains k).
Proof. apply inert_bind; [apply inert_contains | intros; apply inert_ret]. Qed.

Lemma inert_getitem k : inert (getitem k).
Proof. apply inert_bind; [apply inert_read | intros; apply inert_lift]. Qed.

Lemma inert_get k v : inert (get k v).
Proof. apply inert_bind; [apply inert_read | intros; apply inert_lift]. Qed.

Lemma inert_and_then (a b : M bool) : inert a -> inert b -> inert (and_then a b).
Proof.
  intros Ha Hb. apply inert_bind; [exact Ha | intros c].
  apply inert_if; [exact Hb | apply inert_ret].
Qed.

Lemma inert_when c (body : M unit) : inert body -> inert (when c body).
Proof. intros H. apply inert_if; [exact H | apply inert_ret]. Qed.

End Inert.

Create HintDb inert.
#[export] Hint Resolve inert_ret inert_lift inert_read inert_bind inert_setitem inert_if
  inert_contains inert_not_contains inert_getitem inert_get inert_and_then inert_when : inert.

(** The rules of the three normalizers, one after the other, without the
    decoding step. *)
Lemma inert_heart_rate_rules :
  inert (heart_rate_from_normalized ;; heart_rate_unit ;; heart_rate_from_avg_hr ;;
         heart_rate_from_data_points).
Proof.
  unfold heart_rate_from_normalized, heart_rate_unit, heart_rate_from_avg_hr,
    heart_rate_from_data_points. eauto 40 with inert.
Qed.

Lemma inert_activity_rules : inert (activity_distance ;; activity_calories ;; activity_steps).
Proof. unfold activity_distance, activity_calories, activity_steps. eauto 40 with inert. Qed.

Lemma inert_sleep_rules : inert (sleep_duration ;; sleep_stages).
Proof. unfold sleep_duration, sleep_stages. eauto 40 with inert. Qed.

Section NonMappings.

Variable json_loads : string -> exn pyval.

(** Whatever the decoding step leaves bound to the parameter, when it is
    not a dict the rules leave it there. *)
Lemma normalizers_after_decoding s r v :
  decode_if_str json_loads s = (r, v) -> is_dict v = false ->
  final (heart_rate_body json_loads) s = v /\
  final (activity_body json_loads) s = v /\
  final (sleep_body json_loads) s = v.
Proof.
  intros Hdec Hv. unfold heart_rate_body, activity_body, sleep_body.
  rewrite !final_bind, Hdec. destruct r as [[] | e]; [| repeat split].
  split; [apply inert_heart_rate_rules, Hv |].
  split; [apply inert_activity_rules, Hv | apply inert_sleep_rules, Hv].
Qed.

(** X1. A payload that is neither a mapping nor a string (null, a number,
    a boolean, a list) is returned as it is by each normalizer: the first
    rule raises, or no rule applies, and nothing can be assigned. *)
Theorem X1_non_mapping_payload_returned_unchanged (v : pyval) :
  is_dict v = false -> is_str v = false ->
  normalize_heart_rate json_loads v = v /\
  normalize_activity json_loads v = v /\
  normalize_sleep json_loads v = v.
Proof.
  intros Hd Hs. unfold normalize_heart_rate, normalize_activity, normalize_sleep.
  destruct (is_none v) eqn:Hn; [destruct v; try discriminate; repeat split |].
  apply (normalizers_after_decoding v (Ok tt) v); [| exact Hd].
  destruct v; try discriminate; reflexivity.
Qed.

(** X2. A string payload that [json.loads] rejects is returned as it is,
    the same string, by each normalizer. *)
Theorem X2_undecodable_string_returned_unchanged text e :
  json_loads text = Raise e ->
  normalize_heart_rate json_loads (VStr text) = VStr text /\
  normalize_activity json_loads (VStr text) = VStr text /\
  normalize_sleep json_loads (VStr text) = VStr text.
Proof.
  intros He. unfold normalize_heart_rate, normalize_activity, normalize_sleep. simpl.
  apply (normalizers_after_decoding (VStr text) (Raise e) (VStr text)); [| reflexivity].
  apply decode_if_str_raise, He.
Qed.

(** X3. A string payload that decodes to something that is not a mapping
    (the JSON texts [null], [5], ["abc"], [[1, 2]]) comes back as the
    decoded value, not as the string that was passed in: [null] gives
    [None]. *)
Theorem X3_string_decoding_to_non_mapping_returns_decoded_value text v :
  json_loads text = Ok v -> is_dict v = false ->
  normalize_heart_rate json_loads (VStr text) = v /\
  normalize_activity json_loads (VStr text) = v /\
  normalize_sleep json_loads (VStr text) = v.
Proof.
  intros Hv Hd. unfold normalize_heart_rate, normalize_activity, normalize_sleep. simpl.
  apply (normalizers_after_decoding (VStr text) (Ok tt) v); [| exact Hd].
  apply decode_if_str_ok, Hv.
Qed.

(** X4. A string payload that decodes to a mapping is normalized exactly
    as that mapping is. *)
Theorem X4_string_payload_normalized_as_its_mapping text d :
  json_loads text = Ok (VDict d) ->
  normalize_heart_rate json_loads (VStr text) = normalize_heart_rate json_loads (VDict d) /\
  normalize_activity json_loads (VStr text) = normalize_activity json_loads (VDict d) /\
  normalize_sleep json_loads (VStr text) = normalize_sleep json_loads (VDict d).
Proof. apply normalizers_on_decodable_string. Qed.

End NonMappings.

Lemma X1_list_payload_scenario :
  is_dict (VList [VInt 60; VInt 75]) = false /\
  is_str (VList [VInt 60; VInt 75]) = false /\
  (forall json_loads,
     normalize_heart_rate json_loads (VList [VInt 60; VInt 75]) = VList [VInt 60; VInt 75]).
Proof.
  split; [reflexivity |]. split; [reflexivity |]. intros json_loads.
  apply (X1_non_mapping_payload_returned_unchanged json_loads (VList [VInt 60; VInt 75]));
    reflexivity.
Defined.

Lemma X2_not_json_scenario :
  decode_only "{}" (VDict ∅) "not json" = Raise JSONDecodeError /\
  normalize_sleep (decode_only "{}" (VDict ∅)) (VStr "not json") = VStr "not json".
Proof.
  split; [reflexivity |].
  apply (X2_undecodable_string_returned_unchanged (decode_only "{}" (VDict ∅))
           "not json" JSONDecodeError). reflexivity.
Defined.

Lemma X3_json_null_scenario :
  decode_only "null" VNone "null" = Ok VNone /\
  is_dict VNone = false /\
  normalize_activity (decode_only "null" VNone) (VStr "null") = VNone.
Proof.
  split; [reflexivity |]. split; [reflexivity |].
  apply (X3_string_decoding_to_non_mapping_returns_decoded_value
           (decode_only "null" VNone) "null" VNone); reflexivity.
Defined.

Lemma X4_empty_object_scenario :
  decode_only "{}" (VDict ∅) "{}" = Ok (VDict ∅) /\
  normalize_heart_rate (decode_only "{}" (VDict ∅)) (VStr "{}") = mk_dict [("unit", VStr "bpm")].
Proof.
  split; [reflexivity |].
  rewrite (proj1 (X4_string_payload_normalized_as_its_mapping
             (decode_only "{}" (VDict ∅)) "{}" ∅ eq_refl)).
  vm_compute. reflexivity.
Defined.

(** * What the rules leave alone *)

Lemma frames_heart_rate_unit_only : frames ["unit"] heart_rate_unit.
Proof. unfold heart_rate_unit. eauto 20 with frames. Qed.

(** The first rule is skipped unless the payload has the key [normalized]
    and the unit [normalized]. *)
Lemma heart_rate_from_normalized_guard d :
  d !! "normalized" = None \/ d !! "unit" <> Some (VStr "normalized") ->
  heart_rate_from_normalized (VDict d) = (Ok tt, VDict d).
Proof.
  intros [Hn | Hu]; [| apply heart_rate_from_normalized_skipped, Hu].
  unfold heart_rate_from_normalized. run_rule. rewrite Hn. reflexivity.
Qed.

(** The unit rule completes on an absent unit and on every string. *)
Lemma heart_rate_unit_completes d unit :
  declared d "unit" unit ->
  exists d1, heart_rate_unit (VDict d) = (Ok tt, VDict d1) /\ extends ["unit"] d d1.
Proof.
  intros Hu. destruct (frames_heart_rate_unit_only d) as (r & d1 & Hrun & Hext).
  exists d1. split; [| exact Hext]. rewrite Hrun. f_equal.
  revert Hrun. unfold declared in Hu. unfold heart_rate_unit. run_rule.
  destruct unit as [u |]; repeat (rewrite ?Hu; simpl).
  - case_bool_decide; intros [= <- _]; reflexivity.
  - intros [= <- _]. reflexivity.
Qed.

(** The calories rule is skipped when [total_calories] is there. *)
Lemma activity_calories_skipped d :
  is_Some (d !! "total_calories") -> activity_calories (VDict d) = (Ok tt, VDict d).
Proof.
  intros [v Hv]. unfold activity_calories. run_rule.
  rule_cases; reflexivity.
Qed.

(** The rest of [normalize_heart_rate] once the first rule was skipped. *)
Lemma normalize_heart_rate_guarded json_loads d :
  d !! "normalized" = None \/ d !! "unit" <> Some (VStr "normalized") ->
  normalize_heart_rate json_loads (VDict d) =
    final (heart_rate_unit ;; heart_rate_from_avg_hr ;; heart_rate_from_data_points) (VDict d).
Proof.
  intros Hg. unfold normalize_heart_rate, heart_rate_body. simpl.
  rewrite final_bind, decode_if_str_dict, final_bind, (heart_rate_from_normalized_guard d Hg).
  reflexivity.
Qed.

Section Kept.

Variable json_loads : string -> exn pyval.

(** X5. A [total_calories] that the activity payload already has is never
    replaced, and neither is a [sleep_duration_ms] that the sleep payload
    already has: both come out with the value they came with, whatever the
    other fields hold. *)
Theorem X5_existing_totals_are_kept (d : gmap string pyval) v :
  (d !! "total_calories" = Some v ->
   field (normalize_activity json_loads (VDict d)) "total_calories" = Some v) /\
  (d !! "sleep_duration_ms" = Some v ->
   field (normalize_sleep json_loads (VDict d)) "sleep_duration_ms" = Some v).
Proof.
  split; intros Hv.
  - destruct (frames_activity_distance d) as (r & d1 & Hrun & [Hsame _]).
    assert (Hv1 : d1 !! "total_calories" = Some v) by (rewrite Hsame by other_key; exact Hv).
    unfold normalize_activity, activity_body. simpl.
    rewrite final_bind, decode_if_str_dict, final_bind, Hrun.
    destruct r as [[] | e]; [| exact Hv1].
    rewrite final_bind, (activity_calories_skipped d1) by eauto.
    destruct (final_frames ["steps"] activity_steps d1 frames_activity_steps)
      as (d2 & -> & [Hsame2 _]).
    simpl. rewrite Hsame2 by other_key. exact Hv1.
  - unfold normalize_sleep, sleep_body. simpl.
    rewrite final_bind, decode_if_str_dict, final_bind, (sleep_duration_skipped d) by (right; eauto).
    destruct (final_frames ["normalized_stages"] sleep_stages d frames_sleep_stages)
      as (d2 & -> & [Hsame2 _]).
    simpl. rewrite Hsame2 by other_key. exact Hv.
Qed.

(** X6. An [avg_bpm] that the heart-rate payload already has is kept as it
    is unless the first rule applies, that is, unless the payload has the
    key [normalized] and the unit [normalized]: neither [avg_hr] nor the
    data points replace it. *)
Theorem X6_existing_avg_bpm_is_kept (d : gmap string pyval) v :
  d !! "avg_bpm" = Some v ->
  d !! "normalized" = None \/ d !! "unit" <> Some (VStr "normalized") ->
  field (normalize_heart_rate json_loads (VDict d)) "avg_bpm" = Some v.
Proof.
  intros Hv Hg. rewrite (normalize_heart_rate_guarded json_loads d Hg).
  destruct (frames_heart_rate_unit_only d) as (r & d1 & Hrun & [Hsame _]).
  assert (Hv1 : d1 !! "avg_bpm" = Some v) by (rewrite Hsame by other_key; exact Hv).
  rewrite final_bind, Hrun. destruct r as [[] | e]; [| exact Hv1].
  rewrite final_bind, (heart_rate_from_avg_hr_skipped d1) by eauto.
  unfold final. rewrite (heart_rate_from_data_points_skipped d1) by eauto. exact Hv1.
Qed.

(** X7. A unit string that is not one of the bpm spellings is left as it
    is, unless the first rule applies: the unit [normalized] itself stays
    [normalized] on a payload without the key [normalized]. *)
Theorem X7_other_unit_strings_are_kept (d : gmap string pyval) u :
  d !! "unit" = Some (VStr u) ->
  lower u ∉ ["bpm"; "beats_per_minute"; "beats per minute"] ->
  d !! "normalized" = None \/ u <> "normalized" ->
  field (normalize_heart_rate json_loads (VDict d)) "unit" = Some (VStr u).
Proof.
  intros Hu Hother Hg.
  rewrite (normalize_heart_rate_guarded json_loads d)
    by (destruct Hg as [Hn | Hne]; [left; exact Hn | right; rewrite Hu; congruence]).
  assert (Hrun : heart_rate_unit (VDict d) = (Ok tt, VDict d)).
  { unfold heart_rate_unit. run_rule. repeat (rewrite ?Hu; simpl).
    rewrite bool_decide_eq_false_2 by exact Hother. reflexivity. }
  rewrite final_bind, Hrun.
  destruct (final_frames ["avg_bpm"] (heart_rate_from_avg_hr ;; heart_rate_from_data_points) d)
    as (d2 & -> & [Hsame _]).
  { apply frames_bind; [apply frames_heart_rate_from_avg_hr
                       | intros _; apply frames_heart_rate_from_data_points]. }
  simpl. rewrite Hsame by other_key. exact Hu.
Qed.

(** X8. When the payload has [avg_hr] and no [avg_bpm], its unit is absent
    or a string, and the first rule does not apply, [avg_bpm] comes out
    equal to [avg_hr], whatever the data points hold. *)
Theorem X8_avg_hr_is_copied (d : gmap string pyval) unit v :
  d !! "avg_hr" = Some v ->
  d !! "avg_bpm" = None ->
  declared d "unit" unit ->
  d !! "normalized" = None \/ unit <> Some "normalized" ->
  field (normalize_heart_rate json_loads (VDict d)) "avg_bpm" = Some v.
Proof.
  intros Hhr Hbpm Hu Hg.
  rewrite (normalize_heart_rate_guarded json_loads d).
  2:{ destruct Hg as [Hn | Hne]; [left; exact Hn | right].
      unfold declared in Hu. rewrite Hu. destruct unit; simpl; congruence. }
  destruct (heart_rate_unit_completes d unit Hu) as (d1 & Hrun & [Hsame _]).
  rewrite final_bind, Hrun, final_bind.
  assert (Hcopy : heart_rate_from_avg_hr (VDict d1) = (Ok tt, VDict (<["avg_bpm" := v]> d1))).
  { assert (Hhr1 : d1 !! "avg_hr" = Some v) by (rewrite Hsame by other_key; exact Hhr).
    assert (Hbpm1 : d1 !! "avg_bpm" = None) by (rewrite Hsame by other_key; exact Hbpm).
    unfold heart_rate_from_avg_hr. run_rule.
    repeat (rewrite ?Hhr1, ?Hbpm1; simpl). reflexivity. }
  rewrite Hcopy. unfold final.
  rewrite heart_rate_from_data_points_skipped by (rewrite lookup_insert_eq; eauto).
  simpl. apply lookup_insert_eq.
Qed.

End Kept.

Lemma X5_kept_totals_scenario :
  let act : gmap string pyval :=
    list_to_map [("total_calories", VInt 2100); ("calories", VInt 300)] in
  let slp : gmap string pyval :=
    list_to_map [("sleep_duration_ms", VInt 5); ("sleep_duration", VInt 8)] in
  act !! "total_calories" = Some (VInt 2100) /\
  slp !! "sleep_duration_ms" = Some (VInt 5) /\
  (forall json_loads,
     field (normalize_activity json_loads (VDict act)) "total_calories" = Some (VInt 2100) /\
     field (normalize_sleep json_loads (VDict slp)) "sleep_duration_ms" = Some (VInt 5)).
Proof.
  cbv zeta. split; [reflexivity |]. split; [reflexivity |]. intros json_loads. split.
  - apply (proj1 (X5_existing_totals_are_kept json_loads _ (VInt 2100))). reflexivity.
  - apply (proj2 (X5_existing_totals_are_kept json_loads _ (VInt 5))). reflexivity.
Defined.

Lemma X6_kept_avg_bpm_scenario :
  let d : gmap string pyval := list_to_map [("avg_bpm", VInt 62); ("avg_hr", VInt 70)] in
  d !! "avg_bpm" = Some (VInt 62) /\
  d !! "normalized" = None /\
  (forall json_loads,
     field (normalize_heart_rate json_loads (VDict d)) "avg_bpm" = Some (VInt 62)).
Proof.
  cbv zeta. split; [reflexivity |]. split; [reflexivity |]. intros json_loads.
  apply X6_existing_avg_bpm_is_kept; [reflexivity | left; reflexivity].
Defined.

Lemma X7_kept_unit_scenario :
  let d : gmap string pyval := list_to_map [("avg_normalized", VFloat 0.5); ("unit", VStr "normalized")] in
  d !! "unit" = Some (VStr "normalized") /\
  d !! "normalized" = None /\
  (forall json_loads,
     field (normalize_heart_rate json_loads (VDict d)) "unit" = Some (VStr "normalized")).
Proof.
  cbv zeta. split; [reflexivity |]. split; [reflexivity |]. intros json_loads.
  apply X7_other_unit_strings_are_kept;
    [reflexivity | vm_compute; set_unfold; intuition discriminate | left; reflexivity].
Defined.

Lemma X8_avg_hr_scenario :
  let d : gmap string pyval := list_to_map [("avg_hr", VInt 58); ("unit", VStr "BPM")] in
  d !! "avg_hr" = Some (VInt 58) /\
  d !! "avg_bpm" = None /\
  declared d "unit" (Some "BPM") /\
  (forall json_loads,
     field (normalize_heart_rate json_loads (VDict d)) "avg_bpm" = Some (VInt 58)).
Proof.
  cbv zeta. split; [reflexivity |]. split; [reflexivity |]. split; [reflexivity |].
  intros json_loads.
  apply (X8_avg_hr_is_copied json_loads _ (Some "BPM"));
    [reflexivity | reflexivity | reflexivity | left; reflexivity].
Defined.

(** * Calories, steps, and a second pass over an activity *)

Lemma activity_calories_copy d v :
  d !! "calories" = Some v -> d !! "total_calories" = None ->
  activity_calories (VDict d) = (Ok tt, VDict (<["total_calories" := v]> d)).
Proof.
  intros Hc Ht. unfold activity_calories. run_rule.
  repeat (rewrite ?Hc, ?Ht; simpl). reflexivity.
Qed.

Lemma activity_calories_estimate d active :
  d !! "calories" = None -> d !! "total_calories" = None ->
  d !! "active_calories" = Some active ->
  activity_calories (VDict d) =
    match estimated_total_calories active (d !! "duration_ms") with
    | Ok total => (Ok tt, VDict (<["total_calories" := total]> d))
    | Raise e => (Raise e, VDict d)
    end.
Proof.
  intros Hc Ht Ha. unfold activity_calories, estimated_total_calories.
  change (1000 * 60 * 60) with 3600000.
  change (py_truediv (VInt 1800) (VInt 24)) with (Ok (VFloat 75)).
  cbv [and_then not_contains contains getitem get when bind read lift ret setitem
       py_contains py_getitem py_get exn_bind].
  repeat (rewrite ?Hc, ?Ht, ?Ha; cbv beta iota delta [negb]).
  destruct (d !! "duration_ms") as [t |] eqn:Ht'; cbv beta iota;
    repeat (rewrite ?Ht', ?Ha; cbv beta iota); [| reflexivity].
  destruct (py_truediv t (VInt 3600000)) as [hours | e]; [| reflexivity].
  destruct (py_mul (VFloat 75) hours) as [bmr | e]; [| reflexivity].
  repeat (rewrite ?Ha; cbv beta iota). destruct (py_add active bmr); reflexivity.
Qed.


(** The total estimated from float readings. *)
Lemma estimated_total_calories_floats (active duration_ms : float) :
  estimated_total_calories (VFloat active) (Some (VFloat duration_ms)) =
    Ok (VFloat (active + 75 * (duration_ms / 3600000))%float) /\
  estimated_total_calories (VFloat active) None = Ok (VFloat active).
Proof. split; reflexivity. Qed.

Example steps_as_int_examples :
  steps_as_int (VInt 4000) = Ok (VInt 4000) /\
  steps_as_int (VStr "120.7") = Ok (VInt 120) /\
  steps_as_int (VFloat (-2.5)) = Ok (VInt (-2)) /\
  steps_as_int (VStr "many") = Raise ValueError /\
  steps_as_int (VFloat infinity) = Raise OverflowError /\
  steps_as_int (VList []) = Raise TypeError.
Proof. repeat split; vm_compute; reflexivity. Qed.

Section Activity.

Variable json_loads : string -> exn pyval.

(** [normalize_activity] from the outcome of its first two rules. *)
Lemma normalize_activity_after_calories d r d2 :
  (activity_distance ;; activity_calories) (VDict d) = (r, VDict d2) ->
  normalize_activity json_loads (VDict d) =
    match r with
    | Ok _ => final activity_steps (VDict d2)
    | Raise _ => VDict d2
    end.
Proof.
  intros Hrun. unfold normalize_activity, activity_body. simpl.
  rewrite final_bind, decode_if_str_dict. unfold final.
  revert Hrun. unfold bind.
  destruct (activity_distance (VDict d)) as [[[] | e] s1]; [| intros [= <- <-]; reflexivity].
  destruct (activity_calories s1) as [[[] | e] s2]; intros [= <- <-]; reflexivity.
Qed.

(** X9. When the activity payload has [calories] and no [total_calories],
    the output's [total_calories] is the value of [calories], whatever
    [active_calories] and [duration_ms] hold, provided the distance rule
    before it completes; when the distance rule raises, the output has no
    [total_calories]. *)
Theorem X9_calories_become_total_calories (d : gmap string pyval) v :
  d !! "calories" = Some v ->
  d !! "total_calories" = None ->
  field (normalize_activity json_loads (VDict d)) "total_calories" =
    match fst (activity_distance (VDict d)) with
    | Ok _ => Some v
    | Raise _ => None
    end.
Proof.
  intros Hc Ht.
  destruct (frames_activity_distance d) as (r & d1 & Hrun & [Hsame _]).
  assert (Hc1 : d1 !! "calories" = Some v) by (rewrite Hsame by other_key; exact Hc).
  assert (Ht1 : d1 !! "total_calories" = None) by (rewrite Hsame by other_key; exact Ht).
  rewrite Hrun. simpl. destruct r as [[] | e].
  - rewrite (normalize_activity_after_calories d (Ok tt) (<["total_calories" := v]> d1))
      by (unfold bind; rewrite Hrun; apply activity_calories_copy; assumption).
    destruct (final_frames ["steps"] activity_steps (<["total_calories" := v]> d1)
                frames_activity_steps) as (d' & -> & [Hsame' _]).
    simpl. rewrite Hsame' by other_key. apply lookup_insert_eq.
  - rewrite (normalize_activity_after_calories d (Raise e) d1)
      by (unfold bind; rewrite Hrun; reflexivity).
    exact Ht1.
Qed.

(** X10. When the activity payload has [active_calories] and neither
    [calories] nor [total_calories], the output's [total_calories] is the
    active calories plus 75.0 for every hour of [duration_ms] (the quotient
    of [duration_ms] by 3600000), or the active calories themselves when
    there is no [duration_ms]; it is absent when the distance rule raises
    or the sum cannot be computed. *)
Theorem X10_total_calories_estimated_from_active (d : gmap string pyval) active :
  d !! "calories" = None ->
  d !! "total_calories" = None ->
  d !! "active_calories" = Some active ->
  field (normalize_activity json_loads (VDict d)) "total_calories" =
    match fst (activity_distance (VDict d)),
          estimated_total_calories active (d !! "duration_ms") with
    | Ok _, Ok total => Some total
    | _, _ => None
    end.
Proof.
  intros Hc Ht Ha.
  destruct (frames_activity_distance d) as (r & d1 & Hrun & [Hsame _]).
  assert (Hc1 : d1 !! "calories" = None) by (rewrite Hsame by other_key; exact Hc).
  assert (Ht1 : d1 !! "total_calories" = None) by (rewrite Hsame by other_key; exact Ht).
  assert (Ha1 : d1 !! "active_calories" = Some active)
    by (rewrite Hsame by other_key; exact Ha).
  assert (Hd1 : d1 !! "duration_ms" = d !! "duration_ms") by (apply Hsame; other_key).
  pose proof (activity_calories_estimate d1 active Hc1 Ht1 Ha1) as Hest.
  rewrite Hd1 in Hest. rewrite Hrun. simpl. destruct r as [[] | e].
  - destruct (estimated_total_calories active (d !! "duration_ms")) as [total | e].
    + rewrite (normalize_activity_after_calories d (Ok tt) (<["total_calories" := total]> d1))
        by (unfold bind; rewrite Hrun; exact Hest).
      destruct (final_frames ["steps"] activity_steps (<["total_calories" := total]> d1)
                  frames_activity_steps) as (d' & -> & [Hsame' _]).
      simpl. rewrite Hsame' by other_key. apply lookup_insert_eq.
    + rewrite (normalize_activity_after_calories d (Raise e) d1)
        by (unfold bind; rewrite Hrun; exact Hest).
      exact Ht1.
  - rewrite (normalize_activity_after_calories d (Raise e) d1)
      by (unfold bind; rewrite Hrun; reflexivity).
    exact Ht1.
Qed.


(** X12. [normalize_activity] is not idempotent on the distance: once a
    pass has computed [distance_meters] and set the unit to ['meters'], a
    second pass reads the raw [distance] as meters and replaces
    [distance_meters] by it. *)
Theorem X12_second_pass_takes_the_raw_distance (d : gmap string pyval) distance unit r :
  d !! "distance" = Some distance ->
  declared d "distance_unit" unit ->
  spec_distance_meters distance unit = Ok r ->
  field (normalize_activity json_loads (normalize_activity json_loads (VDict d)))
        "distance_meters" = Some distance.
Proof.
  intros Hd Hu Hr.
  destruct (normalize_activity_after_distance json_loads d _ _
              (activity_distance_run d distance unit r Hd Hu Hr)) as (d' & -> & [Hsame _]).
  assert (Hd' : d' !! "distance" = Some distance).
  { rewrite Hsame by other_key. rewrite !lookup_insert_ne by discriminate. exact Hd. }
  assert (Hu' : declared d' "distance_unit" (Some "meters")).
  { unfold declared. rewrite Hsame by other_key. apply lookup_insert_eq. }
  destruct (normalize_activity_after_distance json_loads d' _ _
              (activity_distance_run d' distance (Some "meters") distance Hd' Hu' eq_refl))
    as (d'' & -> & [Hsame' _]).
  simpl. rewrite Hsame' by other_key.
  rewrite lookup_insert_ne by discriminate. apply lookup_insert_eq.
Qed.

End Activity.

Lemma X9_calories_scenario :
  let d : gmap string pyval :=
    list_to_map [("calories", VInt 300); ("active_calories", VInt 100);
                 ("duration_ms", VInt 7200000)] in
  d !! "calories" = Some (VInt 300) /\
  d !! "total_calories" = None /\
  (forall json_loads,
     field (normalize_activity json_loads (VDict d)) "total_calories" = Some (VInt 300)).
Proof.
  cbv zeta. split; [reflexivity |]. split; [reflexivity |]. intros json_loads.
  rewrite (X9_calories_become_total_calories json_loads _ (VInt 300)) by reflexivity.
  reflexivity.
Defined.

Lemma X10_two_hours_scenario :
  let d : gmap string pyval :=
    list_to_map [("active_calories", VInt 100); ("duration_ms", VInt 7200000)] in
  d !! "calories" = None /\
  d !! "total_calories" = None /\
  d !! "active_calories" = Some (VInt 100) /\
  (forall json_loads,
     field (normalize_activity json_loads (VDict d)) "total_calories" = Some (VFloat 250)).
Proof.
  cbv zeta. split; [reflexivity |]. split; [reflexivity |]. split; [reflexivity |].
  intros json_loads.
  rewrite (X10_total_calories_estimated_from_active json_loads _ (VInt 100)) by reflexivity.
  vm_compute. reflexivity.
Defined.


Lemma X12_two_miles_twice_scenario :
  let d : gmap string pyval :=
    list_to_map [("distance", VInt 2); ("distance_unit", VStr "miles")] in
  d !! "distance" = Some (VInt 2) /\
  declared d "distance_unit" (Some "miles") /\
  spec_distance_meters (VInt 2) (Some "miles") = Ok (VFloat 3218.68) /\
  (forall json_loads,
     field (normalize_activity json_loads (VDict d)) "distance_meters" = Some (VFloat 3218.68) /\
     field (normalize_activity json_loads (normalize_activity json_loads (VDict d)))
           "distance_meters" = Some (VInt 2)).
Proof.
  cbv zeta. split; [reflexivity |]. split; [reflexivity |].
  split; [vm_compute; reflexivity |].
  intros json_loads. split; [vm_compute; reflexivity |].
  apply (X12_second_pass_takes_the_raw_distance json_loads _ (VInt 2) (Some "miles")
           (VFloat 3218.68)); vm_compute; reflexivity.
Defined.

(** * A second pass over a sleep payload, and stages without aliases *)

(** The outcome of the stages rule on a mapping. *)
Lemma sleep_stages_outcome d :
  sleep_stages (VDict d) =
    match d !! "stages" with
    | None => (Ok tt, VDict d)
    | Some stages =>
        match scan_stages stages stage_mapping ∅ with
        | Ok ns => (Ok tt, VDict (<["normalized_stages" := VDict ns]> d))
        | Raise e => (Raise e, VDict d)
        end
    end.
Proof.
  unfold sleep_stages. run_rule.
  destruct (d !! "stages") as [stages |] eqn:Hst; simpl; [| reflexivity].
  rewrite Hst. simpl. destruct (scan_stages stages stage_mapping ∅); reflexivity.
Qed.

(** The stages rule reaches a fixed point in one step, and changes no key
    but [normalized_stages]. *)
Lemma sleep_stages_settles d :
  exists d', final sleep_stages (VDict d) = VDict d' /\
             final sleep_stages (VDict d') = VDict d' /\
             (forall k, k <> "normalized_stages" -> d' !! k = d !! k).
Proof.
  unfold final. rewrite sleep_stages_outcome.
  destruct (d !! "stages") as [stages |] eqn:Hst.
  - destruct (scan_stages stages stage_mapping ∅) as [ns | e] eqn:Hscan.
    + exists (<["normalized_stages" := VDict ns]> d). split; [reflexivity |]. split.
      * rewrite sleep_stages_outcome, lookup_insert_ne, Hst, Hscan by discriminate.
        simpl. rewrite insert_insert_eq. reflexivity.
      * intros k Hk. apply lookup_insert_ne. congruence.
    + exists d. split; [reflexivity |]. split; [| reflexivity].
      rewrite sleep_stages_outcome, Hst, Hscan. reflexivity.
  - exists d. split; [reflexivity |]. split; [| reflexivity].
    rewrite sleep_stages_outcome, Hst. reflexivity.
Qed.

(** The duration rule is skipped, raises before it assigns, or assigns
    both of its keys. *)
Lemma sleep_duration_outcome d :
  (exists e, sleep_duration (VDict d) = (Raise e, VDict d)) \/
  (exists d1, sleep_duration (VDict d) = (Ok tt, VDict d1) /\
              (d1 !! "sleep_duration" = None \/ is_Some (d1 !! "sleep_duration_ms"))).
Proof.
  destruct (d !! "sleep_duration") as [duration |] eqn:Hd.
  2:{ right. exists d. split; [apply sleep_duration_skipped |]; left; exact Hd. }
  destruct (d !! "sleep_duration_ms") as [ms |] eqn:Hms.
  { right. exists d. split; [apply sleep_duration_skipped |]; right; eauto. }
  destruct (sleep_duration_cases d) as [[[[] | e] Hrun] | [v Hrun]].
  - exfalso. revert Hrun. unfold sleep_duration. run_rule.
    rule_cases; intros [= Hsame]; try discriminate;
      apply (f_equal (fun m : gmap string pyval => m !! "sleep_duration_ms")) in Hsame;
      rewrite lookup_insert_ne, lookup_insert_eq in Hsame by discriminate; congruence.
  - left. eauto.
  - right. eexists. split; [exact Hrun |]. right.
    rewrite lookup_insert_ne by discriminate. rewrite lookup_insert_eq. eauto.
Qed.

Section Sleep.

Variable json_loads : string -> exn pyval.

Lemma normalize_sleep_skipping d :
  d !! "sleep_duration" = None \/ is_Some (d !! "sleep_duration_ms") ->
  normalize_sleep json_loads (VDict d) = final sleep_stages (VDict d).
Proof.
  intros Hskip. unfold normalize_sleep, sleep_body. simpl.
  rewrite final_bind, decode_if_str_dict, final_bind, (sleep_duration_skipped d Hskip).
  reflexivity.
Qed.

(** X13. [normalize_sleep] is idempotent on mappings: normalizing its
    output again gives the same output, whether the first pass completed
    or raised. *)
Theorem X13_normalize_sleep_idempotent (d : gmap string pyval) :
  normalize_sleep json_loads (normalize_sleep json_loads (VDict d)) =
  normalize_sleep json_loads (VDict d).
Proof.
  destruct (sleep_duration_outcome d) as [[e Hrun] | (d1 & Hrun & Hskip)].
  - assert (Hout : normalize_sleep json_loads (VDict d) = VDict d).
    { unfold normalize_sleep, sleep_body. simpl.
      rewrite final_bind, decode_if_str_dict, final_bind, Hrun. reflexivity. }
    rewrite !Hout. reflexivity.
  - assert (Hout : normalize_sleep json_loads (VDict d) = final sleep_stages (VDict d1)).
    { unfold normalize_sleep, sleep_body. simpl.
      rewrite final_bind, decode_if_str_dict, final_bind, Hrun. reflexivity. }
    rewrite Hout. destruct (sleep_stages_settles d1) as (d2 & -> & Hfix & Hsame).
    rewrite normalize_sleep_skipping; [exact Hfix |].
    rewrite !Hsame by discriminate. exact Hskip.
Qed.

(** X14. When [stages] is a mapping none of whose keys is one of the
    aliases, and the duration rule does not raise, [normalized_stages] is
    the empty mapping: stage names outside the aliases are dropped. *)
Theorem X14_unrecognized_stages_are_dropped (d st : gmap string pyval) :
  d !! "stages" = Some (VDict st) ->
  (forall a, a ∈ stage_aliases -> st !! a = None) ->
  fst (sleep_duration (VDict d)) = Ok tt ->
  field (normalize_sleep json_loads (VDict d)) "normalized_stages" = Some (VDict ∅).
Proof.
  intros Hst Hnone Hdur.
  destruct (frames_sleep_duration d) as (r & d1 & Hrun & [Hsame _]).
  rewrite Hrun in Hdur. simpl in Hdur. subst r.
  assert (Hst1 : d1 !! "stages" = Some (VDict st)) by (rewrite Hsame by other_key; exact Hst).
  destruct (sleep_stages_run d1 st Hst1) as (ns & Hstages & Hlast & Hkeys).
  assert (Hempty : ns = ∅).
  { apply map_eq. intros k. rewrite lookup_empty.
    destruct (ns !! k) as [v |] eqn:Hk; [| reflexivity].
    assert (Hin : k ∈ canonical_stages) by (apply Hkeys; eauto).
    assert (Hvar : exists variations, (k, variations) ∈ stage_mapping /\
                                       forall a, a ∈ variations -> a ∈ stage_aliases).
    { unfold canonical_stages in Hin. unfold stage_mapping, stage_aliases.
      set_unfold in Hin.
      destruct Hin as [-> | [-> | [-> | [-> | []]]]];
        [exists ["light"; "light_sleep"] | exists ["deep"; "deep_sleep"; "slow_wave"]
        | exists ["rem"; "rem_sleep"; "rapid_eye_movement"]
        | exists ["awake"; "wake"; "wakefulness"]];
        (split; [set_solver |]); simpl; set_solver. }
    destruct Hvar as (variations & Hmap & Hal).
    rewrite (Hlast k variations Hmap) in Hk.
    assert (Hlp : last_present st variations = None).
    { unfold last_present.
      assert (Homap : omap (fun a => st !! a) variations = []).
      { clear Hk Hmap. induction variations as [| a rest IH]; [reflexivity |].
        simpl. rewrite (Hnone a) by (apply Hal; left). apply IH.
        intros b Hb. apply Hal. right. exact Hb. }
      rewrite Homap. reflexivity. }
    congruence. }
  subst ns. unfold normalize_sleep, sleep_body. simpl.
  rewrite final_bind, decode_if_str_dict, final_bind, Hrun. unfold final.
  rewrite Hstages. simpl. apply lookup_insert_eq.
Qed.

End Sleep.

Lemma X14_nap_and_doze_scenario :
  let st : gmap string pyval := list_to_map [("nap", VInt 20); ("doze", VInt 5)] in
  let d : gmap string pyval := list_to_map [("stages", VDict st)] in
  d !! "stages" = Some (VDict st) /\
  (forall a, a ∈ stage_aliases -> st !! a = None) /\
  fst (sleep_duration (VDict d)) = Ok tt /\
  (forall json_loads,
     field (normalize_sleep json_loads (VDict d)) "normalized_stages" = Some (VDict ∅)).
Proof.
  cbv zeta.
  assert (Hnone : forall a, a ∈ stage_aliases ->
            (list_to_map [("nap", VInt 20); ("doze", VInt 5)] : gmap string pyval) !! a = None).
  { intros a Ha. unfold stage_aliases, stage_mapping in Ha. simpl in Ha. set_unfold in Ha.
    repeat (destruct Ha as [-> | Ha]; [reflexivity |]). destruct Ha. }
  split; [reflexivity |]. split; [exact Hnone |]. split; [reflexivity |].
  intros json_loads.
  apply (X14_unrecognized_stages_are_dropped json_loads _
           (list_to_map [("nap", VInt 20); ("doze", VInt 5)]));
    [reflexivity | exact Hnone | reflexivity].
Defined.

(** * The mean of the data points, and a second pass over a heart rate *)

(** On data points that are mappings, the comprehension collects the
    [value] of each point that has one, in order. *)
Lemma bpm_values_of_dicts points :
  bpm_values_of (VDict <$> points) = Ok (point_values points).
Proof.
  induction points as [| p rest IH]; [reflexivity |].
  rewrite fmap_cons. cbn [bpm_values_of py_contains py_get exn_bind]. rewrite IH.
  unfold point_values. cbn [omap list_omap].
  destruct (p !! "value"); reflexivity.
Qed.

(** The sum of ints is their exact sum. *)
Lemma py_sum_ints ns :
  py_sum (VInt <$> ns) = Ok (VInt (fold_left Z.add ns 0)).
Proof.
  unfold py_sum. generalize 0. induction ns as [| n rest IH]; intros acc; [reflexivity |].
  simpl. apply IH.
Qed.

(** The mean of ints is the correctly rounded quotient of their sum by
    their number. *)
Lemma mean_of_ints ns :
  mean_of (VInt <$> ns) =
    (f <~ Z_truediv (fold_left Z.add ns 0) (Z.of_nat (length ns)) ;; Ok (VFloat f)).
Proof.
  unfold mean_of. rewrite py_sum_ints, length_fmap. unfold exn_bind at 1.
  unfold py_truediv. simpl. destruct (Z_truediv _ _); reflexivity.
Qed.

Lemma heart_rate_from_avg_hr_absent d :
  d !! "avg_hr" = None -> heart_rate_from_avg_hr (VDict d) = (Ok tt, VDict d).
Proof.
  intros Hhr. unfold heart_rate_from_avg_hr. run_rule. rewrite Hhr. reflexivity.
Qed.

(** The last rule on data points that are mappings. *)
Lemma heart_rate_from_data_points_run d points :
  d !! "avg_bpm" = None ->
  d !! "data_points" = Some (VList (VDict <$> points)) ->
  heart_rate_from_data_points (VDict d) =
    match point_values points with
    | [] => (Ok tt, VDict d)
    | _ :: _ =>
        match mean_of (point_values points) with
        | Ok avg => (Ok tt, VDict (<["avg_bpm" := avg]> d))
        | Raise e => (Raise e, VDict d)
        end
    end.
Proof.
  intros Hbpm Hdp. unfold heart_rate_from_data_points, mean_of.
  cbv [and_then not_contains contains getitem get when bind read lift ret setitem
       py_contains py_getitem py_get].
  repeat (rewrite ?Hbpm, ?Hdp; cbv beta iota delta [negb]).
  destruct points as [| p rest]; [reflexivity |].
  change (py_truth (VList (VDict <$> p :: rest))) with true. cbv beta iota.
  change (py_len (VList (VDict <$> p :: rest)))
    with (Ok (Z.of_nat (S (length (VDict <$> rest))))).
  cbv beta iota.
  replace (0 <? Z.of_nat (S (length (VDict <$> rest)))) with true
    by (symmetry; apply Z.ltb_lt; lia).
  cbv beta iota delta [py_iter]. rewrite bpm_values_of_dicts. cbv beta iota.
  destruct (point_values (p :: rest)) as [| v vs]; [reflexivity |].
  change (py_truth (VList (v :: vs))) with true. cbv beta iota.
  destruct (py_sum (v :: vs)) as [total | e]; cbn [exn_bind]; [| reflexivity].
  cbv beta iota delta [py_len].
  destruct (py_truediv total (VInt (Z.of_nat (length (v :: vs))))); reflexivity.
Qed.

Section HeartRate.

Variable json_loads : string -> exn pyval.

(** X15. When the heart-rate payload has neither [avg_bpm] nor [avg_hr],
    its unit is absent or a string, the first rule does not apply, and
    [data_points] is a list of mappings: [avg_bpm] is the sum of the
    [value]s of the points that have one, divided by their number; points
    without a [value] are skipped, and [avg_bpm] stays absent when no
    point has a value or the mean cannot be computed. *)
Theorem X15_avg_bpm_is_the_mean_of_the_point_values (d : gmap string pyval) unit points :
  d !! "avg_bpm" = None ->
  d !! "avg_hr" = None ->
  declared d "unit" unit ->
  d !! "normalized" = None \/ unit <> Some "normalized" ->
  d !! "data_points" = Some (VList (VDict <$> points)) ->
  field (normalize_heart_rate json_loads (VDict d)) "avg_bpm" =
    match point_values points with
    | [] => None
    | _ :: _ =>
        match mean_of (point_values points) with
        | Ok avg => Some avg
        | Raise _ => None
        end
    end.
Proof.
  intros Hbpm Hhr Hu Hg Hdp.
  rewrite (normalize_heart_rate_guarded json_loads d).
  2:{ destruct Hg as [Hn | Hne]; [left; exact Hn | right].
      unfold declared in Hu. rewrite Hu. destruct unit; simpl; congruence. }
  destruct (heart_rate_unit_completes d unit Hu) as (d1 & Hrun & [Hsame _]).
  assert (Hbpm1 : d1 !! "avg_bpm" = None) by (rewrite Hsame by other_key; exact Hbpm).
  assert (Hhr1 : d1 !! "avg_hr" = None) by (rewrite Hsame by other_key; exact Hhr).
  assert (Hdp1 : d1 !! "data_points" = Some (VList (VDict <$> points)))
    by (rewrite Hsame by other_key; exact Hdp).
  rewrite final_bind, Hrun, final_bind, (heart_rate_from_avg_hr_absent d1 Hhr1).
  unfold final. rewrite (heart_rate_from_data_points_run d1 points Hbpm1 Hdp1).
  destruct (point_values points) as [| v vs]; [exact Hbpm1 |].
  destruct (mean_of (v :: vs)); simpl; [apply lookup_insert_eq | exact Hbpm1].
Qed.

(** X16. When the first rule applies (the payload has the key
    [normalized], the unit [normalized], and a float strictly between 0
    and 1 under [avg_normalized]), [avg_bpm] is 40 + avg_normalized * 180
    and the unit becomes ['bpm'], whatever [avg_bpm], [avg_hr] and the
    data points held. *)
Theorem X16_normalized_reading_is_interpolated (d : gmap string pyval) f :
  is_Some (d !! "normalized") ->
  d !! "unit" = Some (VStr "normalized") ->
  d !! "avg_normalized" = Some (VFloat f) ->
  py_gt_int (VFloat f) 0 = Ok true ->
  py_lt_int (VFloat f) 1 = Ok true ->
  field (normalize_heart_rate json_loads (VDict d)) "avg_bpm" = Some (VFloat (40 + f * 180)) /\
  field (normalize_heart_rate json_loads (VDict d)) "unit" = Some (VStr "bpm").
Proof. apply normalize_heart_rate_interpolates. Qed.

End HeartRate.

Lemma X15_three_points_scenario :
  let points : list (gmap string pyval) :=
    [ {["value" := VInt 60]}; {["value" := VInt 75]}; ∅ ] in
  let d : gmap string pyval := {["data_points" := VList (VDict <$> points)]} in
  d !! "avg_bpm" = None /\
  d !! "avg_hr" = None /\
  declared d "unit" None /\
  d !! "normalized" = None /\
  d !! "data_points" = Some (VList (VDict <$> points)) /\
  (forall json_loads,
     field (normalize_heart_rate json_loads (VDict d)) "avg_bpm" = Some (VFloat 67.5)).
Proof.
  cbv zeta. split; [reflexivity |]. split; [reflexivity |]. split; [reflexivity |].
  split; [reflexivity |]. split; [reflexivity |]. intros json_loads.
  rewrite (X15_avg_bpm_is_the_mean_of_the_point_values json_loads _ None
             [ {["value" := VInt 60]}; {["value" := VInt 75]}; ∅ ]);
    [vm_compute; reflexivity | reflexivity | reflexivity | reflexivity
    | left; reflexivity | reflexivity].
Defined.

Lemma X16_half_range_scenario :
  let d : gmap string pyval :=
    list_to_map [("normalized", VBool true); ("avg_normalized", VFloat 0.5);
                 ("unit", VStr "normalized"); ("avg_bpm", VInt 3)] in
  is_Some (d !! "normalized") /\
  d !! "unit" = Some (VStr "normalized") /\
  d !! "avg_normalized" = Some (VFloat 0.5) /\
  py_gt_int (VFloat 0.5) 0 = Ok true /\
  py_lt_int (VFloat 0.5) 1 = Ok true /\
  (forall json_loads,
     field (normalize_heart_rate json_loads (VDict d)) "avg_bpm" = Some (VFloat 130) /\
     field (normalize_heart_rate json_loads (VDict d)) "unit" = Some (VStr "bpm")).
Proof.
  cbv zeta. split; [eexists; reflexivity |]. split; [reflexivity |]. split; [reflexivity |].
  split; [vm_compute; reflexivity |]. split; [vm_compute; reflexivity |].
  intros json_loads.
  destruct (X16_normalized_reading_is_interpolated json_loads
              (list_to_map [("normalized", VBool true); ("avg_normalized", VFloat 0.5);
                            ("unit", VStr "normalized"); ("avg_bpm", VInt 3)]) 0.5)
    as [Hbpm Hunit];
    [eexists; reflexivity | reflexivity | reflexivity
    | vm_compute; reflexivity | vm_compute; reflexivity |].
  split; [exact Hbpm | exact Hunit].
Defined.

(** * A second pass over a heart-rate payload *)

Section SecondPass.

#[local] Arguments py_gt_int : simpl never.
#[local] Arguments py_lt_int : simpl never.
#[local] Arguments py_mul : simpl never.
#[local] Arguments py_add : simpl never.
#[local] Arguments py_truediv : simpl never.
#[local] Arguments py_sum : simpl never.
#[local] Arguments py_len : simpl never.
#[local] Arguments py_iter : simpl never.
#[local] Arguments py_truth : simpl never.
#[local] Arguments bpm_values_of : simpl never.

(** Case analysis on whatever the rule inspects next. *)
Ltac next_case :=
  repeat (simpl;
          match goal with
          | H : ?x = _ |- context [?x] => rewrite H
          | |- context [match ?d !! ?k with _ => _ end] => destruct (d !! k) eqn:?
          | |- context [py_eq_str ?a ?b] => destruct (py_eq_str a b) eqn:?
          | |- context [py_gt_int ?a ?b] => destruct (py_gt_int a b) as [[|] |] eqn:?
          | |- context [py_lt_int ?a ?b] => destruct (py_lt_int a b) as [[|] |] eqn:?
          | |- context [py_mul ?a ?b] => destruct (py_mul a b) eqn:?
          | |- context [py_add ?a ?b] => destruct (py_add a b) eqn:?
          | |- context [py_truth ?a] => destruct (py_truth a) eqn:?
          | |- context [py_len ?a] => destruct (py_len a) eqn:?
          | |- context [py_iter ?a] => destruct (py_iter a) eqn:?
          | |- context [bpm_values_of ?a] => destruct (bpm_values_of a) eqn:?
          | |- context [py_sum ?a] => destruct (py_sum a) eqn:?
          | |- context [py_truediv ?a ?b] => destruct (py_truediv a b) eqn:?
          | |- context [if ?c then _ else _] => destruct c eqn:?
          end).

(** The first rule either leaves the mapping as it is, and then does the
    same on every mapping with the same [normalized], [unit] and
    [avg_normalized], or assigns [avg_bpm] and the unit ['bpm']. *)
Lemma heart_rate_from_normalized_outcome d :
  (exists r, heart_rate_from_normalized (VDict d) = (r, VDict d) /\
             forall d', d' !! "normalized" = d !! "normalized" ->
                        d' !! "unit" = d !! "unit" ->
                        d' !! "avg_normalized" = d !! "avg_normalized" ->
                        heart_rate_from_normalized (VDict d') = (r, VDict d')) \/
  (exists v, heart_rate_from_normalized (VDict d) =
               (Ok tt, VDict (<["unit" := VStr "bpm"]> (<["avg_bpm" := v]> d)))).
Proof.
  destruct (d !! "normalized") as [n |] eqn:Hn;
    destruct (d !! "unit") as [u |] eqn:Hu;
    destruct (d !! "avg_normalized") as [a |] eqn:Ha;
    unfold heart_rate_from_normalized; run_rule; next_case;
    try (right; eexists; reflexivity);
    (left; eexists; split; [reflexivity |]; intros d' Hn' Hu' Ha';
     repeat (rewrite ?Hn', ?Hu', ?Ha'; simpl); next_case; try reflexivity; congruence).
Qed.

(** The unit rule leaves alone a unit that is ['bpm'] or no bpm spelling. *)
Lemma heart_rate_unit_fixed d u :
  d !! "unit" = Some (VStr u) ->
  u = "bpm" \/ lower u ∉ ["bpm"; "beats_per_minute"; "beats per minute"] ->
  heart_rate_unit (VDict d) = (Ok tt, VDict d).
Proof.
  intros Hu Hcase. unfold heart_rate_unit. run_rule. repeat (rewrite ?Hu; simpl).
  destruct Hcase as [-> | Hother].
  - rewrite bool_decide_eq_true_2 by (vm_compute; set_solver).
    rewrite insert_id by exact Hu. reflexivity.
  - rewrite bool_decide_eq_false_2 by exact Hother. reflexivity.
Qed.

(** The unit rule raises before it assigns, or returns a mapping on which
    it has nothing left to do, and that differs at most by the unit
    ['bpm']. *)
Lemma heart_rate_unit_outcome d :
  (exists e, heart_rate_unit (VDict d) = (Raise e, VDict d)) \/
  (exists d1 u, heart_rate_unit (VDict d) = (Ok tt, VDict d1) /\
                d1 !! "unit" = Some (VStr u) /\
                (u = "bpm" \/ lower u ∉ ["bpm"; "beats_per_minute"; "beats per minute"]) /\
                (d1 = d \/ (u = "bpm" /\ d1 = <["unit" := VStr "bpm"]> d))).
Proof.
  destruct (d !! "unit") as [v |] eqn:Hu.
  - destruct v as [| | | | u | |];
      try (left; unfold heart_rate_unit; run_rule; repeat (rewrite ?Hu; simpl);
           eexists; reflexivity).
    destruct (decide (lower u ∈ ["bpm"; "beats_per_minute"; "beats per minute"]))
      as [Hin | Hout].
    + right. exists (<["unit" := VStr "bpm"]> d), "bpm".
      split; [| split; [apply lookup_insert_eq | split; [left; reflexivity | right; auto]]].
      unfold heart_rate_unit. run_rule. repeat (rewrite ?Hu; simpl).
      rewrite bool_decide_eq_true_2 by exact Hin. reflexivity.
    + right. exists d, u.
      split; [apply (heart_rate_unit_fixed d u Hu); right; exact Hout |].
      split; [exact Hu |]. split; [right; exact Hout | left; reflexivity].
  - right. exists (<["unit" := VStr "bpm"]> d), "bpm".
    split; [| split; [apply lookup_insert_eq | split; [left; reflexivity | right; auto]]].
    unfold heart_rate_unit. run_rule. rewrite Hu. reflexivity.
Qed.

(** The copy of [avg_hr] never raises, and leaves a mapping on which it
    has nothing left to do. *)
Lemma heart_rate_from_avg_hr_outcome d :
  exists d2, heart_rate_from_avg_hr (VDict d) = (Ok tt, VDict d2) /\
             (d2 = d \/ exists v, d2 = <["avg_bpm" := v]> d) /\
             (d2 !! "avg_hr" = None \/ is_Some (d2 !! "avg_bpm")).
Proof.
  destruct (d !! "avg_bpm") as [b |] eqn:Hb.
  { exists d. split; [apply heart_rate_from_avg_hr_skipped; eauto |].
    split; [left; reflexivity | right; eauto]. }
  destruct (d !! "avg_hr") as [v |] eqn:Hv.
  - exists (<["avg_bpm" := v]> d). split; [| split; [right; eauto |]].
    + unfold heart_rate_from_avg_hr. run_rule. repeat (rewrite ?Hb, ?Hv; simpl). reflexivity.
    + right. rewrite lookup_insert_eq. eauto.
  - exists d. split; [apply heart_rate_from_avg_hr_absent, Hv |].
    split; [left; reflexivity | left; exact Hv].
Qed.

(** The last rule leaves the mapping as it is, or assigns [avg_bpm]. *)
Lemma heart_rate_from_data_points_outcome d :
  (exists r, heart_rate_from_data_points (VDict d) = (r, VDict d)) \/
  (exists v, heart_rate_from_data_points (VDict d) = (Ok tt, VDict (<["avg_bpm" := v]> d))).
Proof.
  unfold heart_rate_from_data_points. run_rule. next_case; eauto.
Qed.

(** The last three rules reach a fixed point in one pass. *)
Lemma heart_rate_tail_settles d :
  exists d',
    final (heart_rate_unit ;; heart_rate_from_avg_hr ;; heart_rate_from_data_points) (VDict d)
      = VDict d' /\
    final (heart_rate_unit ;; heart_rate_from_avg_hr ;; heart_rate_from_data_points) (VDict d')
      = VDict d' /\
    (d' !! "unit" = Some (VStr "bpm") \/ d' = d \/ exists x, d' = <["avg_bpm" := x]> d).
Proof.
  destruct (heart_rate_unit_outcome d) as [[e Hrun] | (d1 & u & Hrun & Hu & Hcase & Hd1)].
  { exists d. rewrite final_bind, Hrun. auto. }
  destruct (heart_rate_from_avg_hr_outcome d1) as (d2 & Hcopy & Hd2 & Hdone).
  assert (Hu2 : forall x, <["avg_bpm" := x]> d1 !! "unit" = Some (VStr u))
    by (intros x; rewrite lookup_insert_ne by discriminate; exact Hu).
  assert (Hunit : d2 !! "unit" = Some (VStr u))
    by (destruct Hd2 as [-> | [v ->]]; [exact Hu | apply Hu2]).
  assert (Hshape : forall x, d2 = d1 \/ (exists v, d2 = <["avg_bpm" := v]> d1) ->
            d1 = d \/ (u = "bpm" /\ d1 = <["unit" := VStr "bpm"]> d) ->
            forall d', d' = d2 \/ d' = <["avg_bpm" := x]> d2 ->
            d' !! "unit" = Some (VStr u) ->
            d' !! "unit" = Some (VStr "bpm") \/ d' = d \/ exists y, d' = <["avg_bpm" := y]> d).
  { intros x Hs2 Hs1 d' Hd' Hu'. destruct Hs1 as [-> | [-> _]]; [right | left; exact Hu'].
    destruct Hd' as [-> | ->]; destruct Hs2 as [-> | [v ->]]; eauto.
    right. exists x. apply insert_insert_eq. }
  destruct (heart_rate_from_data_points_outcome d2) as [[r Hlast] | [v Hlast]].
  - exists d2. split; [| split].
    + rewrite final_bind, Hrun, final_bind, Hcopy. unfold final. rewrite Hlast. reflexivity.
    + rewrite final_bind, (heart_rate_unit_fixed d2 u Hunit Hcase), final_bind.
      assert (Hskip : heart_rate_from_avg_hr (VDict d2) = (Ok tt, VDict d2)).
      { destruct Hdone as [Hnone | Hsome];
          [apply heart_rate_from_avg_hr_absent, Hnone
          | apply heart_rate_from_avg_hr_skipped, Hsome]. }
      rewrite Hskip. unfold final. rewrite Hlast. reflexivity.
    + apply (Hshape (VInt 0) Hd2 Hd1 d2); [left; reflexivity | exact Hunit].
  - assert (Hbpm : is_Some (<["avg_bpm" := v]> d2 !! "avg_bpm"))
      by (rewrite lookup_insert_eq; eauto).
    assert (Hunit3 : <["avg_bpm" := v]> d2 !! "unit" = Some (VStr u))
      by (rewrite lookup_insert_ne by discriminate; exact Hunit).
    exists (<["avg_bpm" := v]> d2). split; [| split].
    + rewrite final_bind, Hrun, final_bind, Hcopy. unfold final. rewrite Hlast. reflexivity.
    + rewrite final_bind, (heart_rate_unit_fixed _ u Hunit3 Hcase), final_bind,
        (heart_rate_from_avg_hr_skipped _ Hbpm).
      unfold final. rewrite (heart_rate_from_data_points_skipped _ Hbpm). reflexivity.
    + apply (Hshape v Hd2 Hd1); [right; reflexivity | exact Hunit3].
Qed.

Variable json_loads : string -> exn pyval.

Lemma normalize_heart_rate_after_first_rule d r d1 :
  heart_rate_from_normalized (VDict d) = (r, VDict d1) ->
  normalize_heart_rate json_loads (VDict d) =
    match r with
    | Ok _ =>
        final (heart_rate_unit ;; heart_rate_from_avg_hr ;; heart_rate_from_data_points)
              (VDict d1)
    | Raise _ => VDict d1
    end.
Proof.
  intros Hrun. unfold normalize_heart_rate, heart_rate_body. simpl.
  rewrite final_bind, decode_if_str_dict, final_bind, Hrun.
  destruct r as [[] | e]; reflexivity.
Qed.

(** X17. [normalize_heart_rate] is idempotent on mappings: normalizing
    its output again gives the same output, whether the first pass
    completed or raised. *)
Theorem X17_normalize_heart_rate_idempotent (d : gmap string pyval) :
  normalize_heart_rate json_loads (normalize_heart_rate json_loads (VDict d)) =
  normalize_heart_rate json_loads (VDict d).
Proof.
  destruct (heart_rate_from_normalized_outcome d) as [(r & Hrun & Hsame) | [v Hrun]].
  - rewrite (normalize_heart_rate_after_first_rule d r d Hrun).
    destruct r as [[] | e].
    2:{ rewrite (normalize_heart_rate_after_first_rule d (Raise e) d Hrun). reflexivity. }
    destruct (heart_rate_tail_settles d) as (d' & -> & Hfix & Hshape).
    assert (Hfirst : heart_rate_from_normalized (VDict d') = (Ok tt, VDict d')).
    { destruct Hshape as [Hbpm | [-> | [x ->]]].
      - apply heart_rate_from_normalized_skipped. rewrite Hbpm. discriminate.
      - exact Hrun.
      - apply Hsame; apply lookup_insert_ne; discriminate. }
    rewrite (normalize_heart_rate_after_first_rule d' (Ok tt) d' Hfirst). exact Hfix.
  - rewrite (normalize_heart_rate_after_first_rule d (Ok tt) _ Hrun).
    set (d1 := <["unit" := VStr "bpm"]> (<["avg_bpm" := v]> d)).
    assert (Hu1 : d1 !! "unit" = Some (VStr "bpm")) by apply lookup_insert_eq.
    destruct (heart_rate_tail_settles d1) as (d' & -> & Hfix & Hshape).
    assert (Hbpm : d' !! "unit" = Some (VStr "bpm")).
    { destruct Hshape as [Hbpm | [-> | [x ->]]]; [exact Hbpm | exact Hu1 |].
      rewrite lookup_insert_ne by discriminate. exact Hu1. }
    assert (Hfirst : heart_rate_from_normalized (VDict d') = (Ok tt, VDict d')).
    { apply heart_rate_from_normalized_skipped. rewrite Hbpm. discriminate. }
    rewrite (normalize_heart_rate_after_first_rule d' (Ok tt) d' Hfirst). exact Hfix.
Qed.

End SecondPass.

(** * The keys of each normalizer, and the timestamp columns *)

Section OwnKeys.

Variable json_loads : string -> exn pyval.

(** X18. Each normalizer assigns its own keys only:
    [normalize_heart_rate] changes nothing but [avg_bpm] and [unit],
    [normalize_activity] nothing but [distance_meters], [distance_unit],
    [total_calories] and [steps], and [normalize_sleep] nothing but
    [sleep_duration_ms], [duration_unit] and [normalized_stages]; every
    other key has in the output the value, or the absence, it had in the
    input. *)
Theorem X18_each_normalizer_assigns_its_own_keys (d : gmap string pyval) (k : string) :
  (k ∉ ["avg_bpm"; "unit"] ->
   field (normalize_heart_rate json_loads (VDict d)) k = d !! k) /\
  (k ∉ ["distance_meters"; "distance_unit"; "total_calories"; "steps"] ->
   field (normalize_activity json_loads (VDict d)) k = d !! k) /\
  (k ∉ ["sleep_duration_ms"; "duration_unit"; "normalized_stages"] ->
   field (normalize_sleep json_loads (VDict d)) k = d !! k).
Proof.
  unfold normalize_heart_rate, normalize_activity, normalize_sleep. simpl.
  destruct (final_frames _ _ d (frames_heart_rate_body json_loads)) as (d1 & -> & [H1 _]).
  destruct (final_frames _ _ d (frames_activity_body json_loads)) as (d2 & -> & [H2 _]).
  destruct (final_frames _ _ d (frames_sleep_body json_loads)) as (d3 & -> & [H3 _]).
  simpl. auto.
Qed.

(** X19. A rule whose input key is missing assigns nothing: without
    [distance] the output has the [distance_meters] and [distance_unit]
    of the input; without [calories] and [active_calories], its
    [total_calories]; without [sleep_duration], its [sleep_duration_ms]
    and [duration_unit]; and without [stages], its [normalized_stages]. *)
Theorem X19_rule_without_its_input_assigns_nothing (d : gmap string pyval) :
  (d !! "distance" = None ->
   field (normalize_activity json_loads (VDict d)) "distance_meters" = d !! "distance_meters" /\
   field (normalize_activity json_loads (VDict d)) "distance_unit" = d !! "distance_unit") /\
  (d !! "calories" = None -> d !! "active_calories" = None ->
   field (normalize_activity json_loads (VDict d)) "total_calories" = d !! "total_calories") /\
  (d !! "sleep_duration" = None ->
   field (normalize_sleep json_loads (VDict d)) "sleep_duration_ms" = d !! "sleep_duration_ms" /\
   field (normalize_sleep json_loads (VDict d)) "duration_unit" = d !! "duration_unit") /\
  (d !! "stages" = None ->
   field (normalize_sleep json_loads (VDict d)) "normalized_stages" = d !! "normalized_stages").
Proof.
  split; [| split; [| split]].
  - intros Hd.
    destruct (normalize_activity_after_distance json_loads d _ _ (activity_distance_absent d Hd))
      as (d' & -> & [Hsame _]).
    simpl. split; apply Hsame; other_key.
  - intros Hc Ha.
    destruct (frames_activity_distance d) as (r & d1 & Hrun & [Hsame _]).
    assert (Hskip : activity_calories (VDict d1) = (Ok tt, VDict d1)).
    { assert (Hc1 : d1 !! "calories" = None) by (rewrite Hsame by other_key; exact Hc).
      assert (Ha1 : d1 !! "active_calories" = None) by (rewrite Hsame by other_key; exact Ha).
      unfold activity_calories. run_rule.
      repeat (rewrite ?Hc1, ?Ha1; simpl). reflexivity. }
    unfold normalize_activity, activity_body. simpl.
    rewrite final_bind, decode_if_str_dict, final_bind, Hrun.
    destruct r as [[] | e]; [| simpl; apply Hsame; other_key].
    rewrite final_bind, Hskip.
    destruct (final_frames ["steps"] activity_steps d1 frames_activity_steps)
      as (d2 & -> & [Hsame2 _]).
    simpl. rewrite Hsame2 by other_key. apply Hsame. other_key.
  - intros Hd.
    destruct (normalize_sleep_after_duration json_loads d _ _
                (sleep_duration_skipped d (or_introl Hd))) as (d' & -> & [Hsame _]).
    simpl. split; apply Hsame; other_key.
  - intros Hst.
    destruct (frames_sleep_duration d) as (r & d1 & Hrun & [Hsame _]).
    unfold normalize_sleep, sleep_body. simpl.
    rewrite final_bind, decode_if_str_dict, final_bind, Hrun.
    destruct r as [[] | e]; [| simpl; apply Hsame; other_key].
    unfold final. rewrite sleep_stages_outcome, (Hsame "stages"), Hst by other_key.
    simpl. apply Hsame. other_key.
Qed.

End OwnKeys.

Lemma X19_units_without_values_scenario :
  let act : gmap string pyval := list_to_map [("distance_unit", VStr "km")] in
  let slp : gmap string pyval :=
    list_to_map [("duration_unit", VStr "hours"); ("normalized_stages", VInt 1)] in
  act !! "distance" = None /\
  slp !! "sleep_duration" = None /\
  slp !! "stages" = None /\
  (forall json_loads,
     field (normalize_activity json_loads (VDict act)) "distance_unit" = Some (VStr "km") /\
     field (normalize_sleep json_loads (VDict slp)) "duration_unit" = Some (VStr "hours") /\
     field (normalize_sleep json_loads (VDict slp)) "normalized_stages" = Some (VInt 1)).
Proof.
  cbv zeta. split; [reflexivity |]. split; [reflexivity |]. split; [reflexivity |].
  intros json_loads.
  pose proof (X19_rule_without_its_input_assigns_nothing json_loads
                (list_to_map [("distance_unit", VStr "km")])) as (Hact & _).
  pose proof (X19_rule_without_its_input_assigns_nothing json_loads
                (list_to_map [("duration_unit", VStr "hours"); ("normalized_stages", VInt 1)]))
    as (_ & _ & Hdur & Hst).
  split; [apply (Hact eq_refl) |]. split; [apply (Hdur eq_refl) | apply (Hst eq_refl)].
Defined.

Section TimestampColumns.

Context {L : DateLib}.


Variable json_loads : string -> exn pyval.


Context {LL : DateLibLaws L}.

(** X21. Whenever the conversion of a string returns a datetime [u], with
    or without a zone in the string, the conversion of the rendering of
    [u] returns a datetime for the same instant: the default zone is
    applied to a string without a zone once, and not again to the result.
    The libraries are assumed to satisfy [DateLibLaws]. *)
Theorem X21_converted_timestamp_converts_to_the_same_instant s u :
  convert_to_utc (Some s) = Ok (Some u) ->
  exists u', convert_to_utc (Some (str_of u)) = Ok (Some u') /\ instant u' = instant u.
Proof.
  simpl. destruct (parse s) as [dt | e]; simpl; [| discriminate].
  destruct (if tzinfo_is_none dt then localize dt else Ok dt) as [dt' | e]; simpl;
    [| discriminate].
  destruct (astimezone_utc dt') as [u0 | e] eqn:Hu; simpl; [| discriminate].
  intros [= <-]. apply (convert_to_utc_of_rendering dt' u0 Hu).
Qed.

End TimestampColumns.

(** X21 on the small library: the wall-clock reading ["1709290800"] has no
    zone; read in New York it is ["@1709308800"] in UTC, which converts to
    itself. *)
Lemma X21_wall_clock_scenario :
  let u := {| EpochLib.wall := 1709308800; EpochLib.utcoffset := Some 0 |} in
  @convert_to_utc EpochLib.lib (Some "1709290800") = Ok (Some u) /\
  @str_of EpochLib.lib u = "@1709308800" /\
  exists u', @convert_to_utc EpochLib.lib (Some "@1709308800") = Ok (Some u') /\
             @instant EpochLib.lib u' = @instant EpochLib.lib u.
Proof.
  cbv zeta. split; [reflexivity |]. split; [reflexivity |].
  apply (@X21_converted_timestamp_converts_to_the_same_instant EpochLib.lib epoch_laws
           "1709290800" {| EpochLib.wall := 1709308800; EpochLib.utcoffset := Some 0 |}).
  reflexivity.
Defined.

(** * Stages that are not a mapping *)

(** On a [stages] value that is not a mapping the inner loop cannot read a
    stage: it raises at the first alias found, or changes nothing. *)
Lemma scan_variations_non_mapping stages standard_stage variations ns :
  is_dict stages = false ->
  scan_variations stages standard_stage variations ns = Ok ns \/
  exists e, scan_variations stages standard_stage variations ns = Raise e.
Proof.
  intros Hst. induction variations as [| a rest IH]; [left; reflexivity |].
  cbn [scan_variations].
  destruct (py_contains a stages) as [[|] | e]; cbn [exn_bind]; [| exact IH | right; eauto].
  destruct stages; try discriminate Hst; right; eexists; reflexivity.
Qed.

Lemma scan_stages_non_mapping stages mapping ns :
  is_dict stages = false ->
  scan_stages stages mapping ns = Ok ns \/ exists e, scan_stages stages mapping ns = Raise e.
Proof.
  intros Hst. induction mapping as [| [standard_stage variations] rest IH];
    [left; reflexivity |].
  change (scan_stages stages ((standard_stage, variations) :: rest) ns)
    with (ns' <~ scan_variations stages standard_stage variations ns ;;
          scan_stages stages rest ns').
  destruct (scan_variations_non_mapping stages standard_stage variations ns Hst)
    as [-> | [e ->]]; cbn [exn_bind]; [exact IH | right; eauto].
Qed.

Section StagesEdge.

Variable json_loads : string -> exn pyval.

(** X22. When [stages] is not a mapping (a list of names, a string, a
    number, null), no stage value can be read from it: the output's
    [normalized_stages] is either the empty mapping, or what the payload
    came with when a rule raised. *)
Theorem X22_non_mapping_stages_give_no_stage (d : gmap string pyval) stages :
  d !! "stages" = Some stages ->
  is_dict stages = false ->
  field (normalize_sleep json_loads (VDict d)) "normalized_stages" = Some (VDict ∅) \/
  field (normalize_sleep json_loads (VDict d)) "normalized_stages" = d !! "normalized_stages".
Proof.
  intros Hst Hnd.
  destruct (frames_sleep_duration d) as (r & d1 & Hrun & [Hsame _]).
  unfold normalize_sleep, sleep_body. simpl.
  rewrite final_bind, decode_if_str_dict, final_bind, Hrun.
  destruct r as [[] | e]; [| right; simpl; apply Hsame; other_key].
  unfold final. rewrite sleep_stages_outcome, (Hsame "stages"), Hst by other_key.
  destruct (scan_stages_non_mapping stages stage_mapping ∅ Hnd) as [-> | [e ->]]; simpl.
  - left. apply lookup_insert_eq.
  - right. apply Hsame. other_key.
Qed.

End StagesEdge.

Lemma X22_stage_names_scenario :
  let names := VList [VStr "n1"; VStr "n2"] in
  let aliases := VList [VStr "deep"; VStr "rem"] in
  let d : gmap string pyval := {["stages" := names]} in
  let d' : gmap string pyval := {["stages" := aliases]} in
  d !! "stages" = Some names /\
  is_dict names = false /\
  (forall json_loads,
     (field (normalize_sleep json_loads (VDict d)) "normalized_stages" = Some (VDict ∅) \/
      field (normalize_sleep json_loads (VDict d)) "normalized_stages" = None) /\
     normalize_sleep json_loads (VDict d) = VDict (<["normalized_stages" := VDict ∅]> d) /\
     normalize_sleep json_loads (VDict d') = VDict d').
Proof.
  cbv zeta. split; [reflexivity |]. split; [reflexivity |]. intros json_loads.
  split; [| split; vm_compute; reflexivity].
  destruct (X22_non_mapping_stages_give_no_stage json_loads
              {["stages" := VList [VStr "n1"; VStr "n2"]]} (VList [VStr "n1"; VStr "n2"]))
    as [Hempty | Hkept]; [reflexivity | reflexivity | left; exact Hempty |].
  right. rewrite Hkept. reflexivity.
Defined.
